(** * ETL.py: paginated fetch with retry, record flattening, warehouse load

    A shallow embedding of [src/3/ETL.py] and the properties its
    specification states about it.

    - Python values decoded from JSON are the inductive type [value]; a
      [dict] is an association list in insertion order, looked up by key.
    - A Python call either returns or raises: [result].
    - [parse_records] only touches the logger: it is a function into a
      result paired with the log records it emitted.
    - [fetch_data] and [load_to_bigquery] talk to the outside (HTTP, the
      clock, the warehouse client, the logger): they are state-passing
      functions over a [world] that counts the HTTP calls made and keeps the
      trace of every effect in order.
    - The [while] loop of [fetch_data] has no bound in the source; the
      embedding takes a fuel (a number of pages) and answers [None] when
      the fuel runs out before the loop ends. *)

From Stdlib Require Import ZArith List String Bool Lia Arith.
Import ListNotations.

Local Open Scope string_scope.
Local Open Scope list_scope.
Local Open Scope Z_scope.

(** ** Python values and exceptions *)

#[local] Set Warnings "-register-all".

Inductive value : Type :=
| VNone
| VBool (b : bool)
| VInt (z : Z)
| VFloat (bits : Z)            (* IEEE-754 binary64 bit pattern; never computed on *)
| VStr (s : string)
| VList (l : list value)
| VDict (d : list (string * value)).

(** Every exception below is a subclass of Python's [Exception], so each is
    caught by [except Exception]. [ExternalError] stands for whatever the
    HTTP library or the warehouse client raises (class name, message). *)
Inductive exn : Type :=
| AttributeError (type_name attr : string)
| TypeError (msg : string)
| ValueError (msg : string)
| OverflowError (msg : string)
| ExternalError (cls msg : string).

Inductive result (A : Type) : Type :=
| Ok (a : A)
| Raise (e : exn).
Arguments Ok {A} a.
Arguments Raise {A} e.

Definition type_name (v : value) : string :=
  match v with
  | VNone => "NoneType"
  | VBool _ => "bool"
  | VInt _ => "int"
  | VFloat _ => "float"
  | VStr _ => "str"
  | VList _ => "list"
  | VDict _ => "dict"
  end.

(** Truth value of an object, as tested by [while x:] and [if x:]. A float
    is false exactly when it is +0.0 or -0.0 (all bits but the sign are 0). *)
Definition truthy (v : value) : bool :=
  match v with
  | VNone => false
  | VBool b => b
  | VInt z => negb (z =? 0)
  | VFloat bits => negb (Z.land bits (2 ^ 63 - 1) =? 0)
  | VStr s => negb (String.eqb s "")
  | VList l => match l with [] => false | _ => true end
  | VDict d => match d with [] => false | _ => true end
  end.

Fixpoint lookup (key : string) (d : list (string * value)) : option value :=
  match d with
  | [] => None
  | (k, v) :: rest => if String.eqb k key then Some v else lookup key rest
  end.

(** [d.get(key, default)] on a dict. *)
Definition dict_get (d : list (string * value)) (key : string) (default : value)
  : value :=
  match lookup key d with
  | Some v => v
  | None => default
  end.

(** [obj.get(key, default)] on any object: only a dict has the method. *)
Definition py_get (obj : value) (key : string) (default : value) : result value :=
  match obj with
  | VDict d => Ok (dict_get d key default)
  | _ => Raise (AttributeError (type_name obj) "get")
  end.

(** A [str] is held in UTF-8. A continuation byte (10xxxxxx) belongs to
    the code point that the nearest byte before it opens. *)
Definition is_continuation (s : string) : bool :=
  match s with
  | String c _ => (128 <=? Z.of_nat (Ascii.nat_of_ascii c))
                  && (Z.of_nat (Ascii.nat_of_ascii c) <? 192)
  | EmptyString => false
  end.

(** The code points of a string, each as a string of its own. *)
Fixpoint code_points (s : string) : list string :=
  match s with
  | EmptyString => []
  | String c rest =>
      match code_points rest with
      | cp :: cps =>
          if is_continuation cp then String c cp :: cps
          else String c EmptyString :: cp :: cps
      | [] => [String c EmptyString]
      end
  end.

(** The characters [for x in s] goes through. *)
Definition chars (s : string) : list value := map VStr (code_points s).

(** The items [for x in obj] goes through: the elements of a list, the keys
    of a dict, the characters of a string; anything else is not iterable. *)
Definition py_iter (obj : value) : result (list value) :=
  match obj with
  | VList l => Ok l
  | VDict d => Ok (map (fun kv => VStr (fst kv)) d)
  | VStr s => Ok (chars s)
  | _ => Raise (TypeError ("'" ++ type_name obj ++ "' object is not iterable"))
  end.

(** [obj == s] for a string literal [s]. *)
Definition eq_str (obj : value) (s : string) : bool :=
  match obj with
  | VStr s' => String.eqb s' s
  | _ => false
  end.

(** ** Effects: log records, HTTP requests, sleeps, warehouse calls *)

Inductive level : Type := Info | Warning | Error.

Inductive log_arg : Type :=
| AVal (v : value)
| AExn (e : exn)
| AInt (z : Z)
| AStr (s : string).

Record request : Type := mkRequest {
  url : string;
  headers : list (string * string);
  params : list (string * value);
  timeout : Z
}.

Record dataframe : Type := mkFrame {
  columns : list string;
  rows : list (list value)
}.

(** What callers hand to [load_to_bigquery] as [data]. *)
Inductive load_data : Type :=
| Frame (df : dataframe)
| Rows (l : list value).

Record schema_field : Type := SchemaField {
  field_name : string;
  field_type : string
}.

Record job_config : Type := LoadJobConfig {
  schema : option (list schema_field);
  source_format : option string;
  write_disposition : string;
  create_disposition : string;
  schema_update_options : list string
}.

(** A log record keeps the message template of the source and the values
    interpolated into it, in order. *)
Inductive event : Type :=
| EvRequest (r : request)
| EvSleep (seconds : Z)
| EvLog (lvl : level) (template : string) (args : list log_arg)
| EvSubmit (method : string) (data : load_data) (table_id : string)
    (config : job_config)
| EvWait (job : string).

(** ** Record flattening: [parse_records] *)

Module Flatten.

(** A computation that may raise and that logs. *)
Definition W (A : Type) : Type := (result A * list event)%type.

Definition ret {A} (a : A) : W A := (Ok a, []).

Definition bind {A B} (m : W A) (k : A -> W B) : W B :=
  match m with
  | (Ok a, l) => let (r, l') := k a in (r, l ++ l')
  | (Raise e, l) => (Raise e, l)
  end.

Definition lift {A} (r : result A) : W A := (r, []).

Definition log (lvl : level) (template : string) (args : list log_arg) : W unit :=
  (Ok tt, [EvLog lvl template args]).

(** [try: m except Exception as e: h e] *)
Definition try_except {A} (m : W A) (h : exn -> W A) : W A :=
  match m with
  | (Ok a, l) => (Ok a, l)
  | (Raise e, l) => let (r, l') := h e in (r, l ++ l')
  end.

Declare Scope flatten_scope.
Delimit Scope flatten_scope with W.
Notation "x <- m ;; k" := (bind m (fun x => k))
  (at level 61, m at next level, right associativity) : flatten_scope.
Notation "m ;; k" := (bind m (fun _ => k))
  (at level 61, right associativity) : flatten_scope.
Local Open Scope flatten_scope.

(** The dict literal of lines 162-171; its values are evaluated in order,
    six of them by [metric.get]. *)
Definition make_record (campaign_name ad_name metric : value) : W value :=
  date <- lift (py_get metric "date" (VStr "")) ;;
  cost <- lift (py_get metric "cost" (VInt 0)) ;;
  impressions <- lift (py_get metric "impressions" (VInt 0)) ;;
  clicks <- lift (py_get metric "clicks" (VInt 0)) ;;
  conversions <- lift (py_get metric "conversions" (VInt 0)) ;;
  revenue <- lift (py_get metric "revenue" (VInt 0)) ;;
  ret (VDict [ ("campaign", campaign_name);
               ("ad_name", ad_name);
               ("date", date);
               ("cost", cost);
               ("impressions", impressions);
               ("clicks", clicks);
               ("conversions", conversions);
               ("revenue", revenue) ]).

(** [for metric in metrics:] over the items of [metrics]; the whole body
    is under the [try], so an item that is no dict is logged and skipped. *)
Fixpoint metrics_loop (campaign_name ad_name : value) (metrics : list value)
    (all_records : list value) : W (list value) :=
  match metrics with
  | [] => ret all_records
  | metric :: rest =>
      all_records' <-
        try_except
          (record <- make_record campaign_name ad_name metric ;;
           ret (all_records ++ [record]))
          (fun e =>
             log Error "Error parsing metric in ad '%s': %s"
               [AVal ad_name; AExn e] ;;
             ret all_records) ;;
      metrics_loop campaign_name ad_name rest all_records'
  end.

(** [for ad in ads:]. The [for metric in metrics] statement itself, that
    is the iteration over [metrics], stands outside every [try]. *)
Fixpoint ads_loop (campaign_name : value) (ads : list value)
    (all_records : list value) : W (list value) :=
  match ads with
  | [] => ret all_records
  | ad :: rest =>
      got <-
        try_except
          (ad_name <- lift (py_get ad "name" (VStr "")) ;;
           metrics <- lift (py_get ad "metrics" (VList [])) ;;
           ret (Some (ad_name, metrics)))
          (fun e =>
             log Error "Error accessing ad data in campaign '%s': %s"
               [AVal campaign_name; AExn e] ;;
             ret None) ;;
      match got with
      | None => ads_loop campaign_name rest all_records
      | Some (ad_name, metrics) =>
          items <- lift (py_iter metrics) ;;
          all_records' <- metrics_loop campaign_name ad_name items all_records ;;
          ads_loop campaign_name rest all_records'
      end
  end.

(** [for campaign in campaigns:]; again the iteration over [ads] is not
    under a [try]. *)
Fixpoint campaigns_loop (campaigns : list value) (all_records : list value)
  : W (list value) :=
  match campaigns with
  | [] => ret all_records
  | campaign :: rest =>
      got <-
        try_except
          (campaign_name <- lift (py_get campaign "name" (VStr "")) ;;
           ads <- lift (py_get campaign "ads" (VList [])) ;;
           ret (Some (campaign_name, ads)))
          (fun e =>
             log Error "Error accessing campaign data: %s" [AExn e] ;;
             ret None) ;;
      match got with
      | None => campaigns_loop rest all_records
      | Some (campaign_name, ads) =>
          items <- lift (py_iter ads) ;;
          all_records' <- ads_loop campaign_name items all_records ;;
          campaigns_loop rest all_records'
      end
  end.

Definition parse_records (response : value) : W (list value) :=
  got <-
    try_except
      (data <- lift (py_get response "data" (VDict [])) ;;
       campaigns <- lift (py_get data "campaigns" (VList [])) ;;
       ret (Some campaigns))
      (fun e =>
         log Error "Error accessing campaigns from response: %s" [AExn e] ;;
         ret None) ;;
  match got with
  | None => ret []
  | Some campaigns =>
      items <- lift (py_iter campaigns) ;;
      campaigns_loop items []
  end.

(** The record that [make_record] builds from a metric that is a dict
    with entries [m]. *)
Definition record_for (campaign_name ad_name : value)
    (m : list (string * value)) : value :=
  VDict [ ("campaign", campaign_name);
          ("ad_name", ad_name);
          ("date", dict_get m "date" (VStr ""));
          ("cost", dict_get m "cost" (VInt 0));
          ("impressions", dict_get m "impressions" (VInt 0));
          ("clicks", dict_get m "clicks" (VInt 0));
          ("conversions", dict_get m "conversions" (VInt 0));
          ("revenue", dict_get m "revenue" (VInt 0)) ].

Definition is_ok {A} (r : result A) : bool :=
  match r with
  | Ok _ => true
  | Raise _ => false
  end.

(** The sub-collections that the three [for] statements iterate over are
    all iterable: [metrics] of every ad that is an object, [ads] of every
    campaign that is an object, [campaigns] of the page. *)
Definition ad_ok (ad : value) : bool :=
  match ad with
  | VDict a => is_ok (py_iter (dict_get a "metrics" (VList [])))
  | _ => true
  end.

Definition campaign_ok (campaign : value) : bool :=
  match campaign with
  | VDict c =>
      match py_iter (dict_get c "ads" (VList [])) with
      | Ok ads => forallb ad_ok ads
      | Raise _ => false
      end
  | _ => true
  end.

Definition page_ok (response : value) : bool :=
  match response with
  | VDict r =>
      match dict_get r "data" (VDict []) with
      | VDict data =>
          match py_iter (dict_get data "campaigns" (VList [])) with
          | Ok campaigns => forallb campaign_ok campaigns
          | Raise _ => false
          end
      | _ => true
      end
  | _ => true
  end.

(** The records of a page, read off its nesting: for every campaign that
    is an object, for every ad of it that is an object, for every metric
    of it that is an object, one record; in that order. Items that are
    no objects give nothing. *)
Definition metric_records (campaign_name ad_name : value)
    (metrics : list value) : list value :=
  flat_map
    (fun metric =>
       match metric with
       | VDict m => [record_for campaign_name ad_name m]
       | _ => []
       end)
    metrics.

Definition ad_records (campaign_name ad : value) : list value :=
  match ad with
  | VDict a =>
      match py_iter (dict_get a "metrics" (VList [])) with
      | Ok metrics =>
          metric_records campaign_name (dict_get a "name" (VStr "")) metrics
      | Raise _ => []
      end
  | _ => []
  end.

Definition campaign_records (campaign : value) : list value :=
  match campaign with
  | VDict c =>
      match py_iter (dict_get c "ads" (VList [])) with
      | Ok ads => flat_map (ad_records (dict_get c "name" (VStr ""))) ads
      | Raise _ => []
      end
  | _ => []
  end.

Definition page_records (response : value) : list value :=
  match response with
  | VDict r =>
      match dict_get r "data" (VDict []) with
      | VDict data =>
          match py_iter (dict_get data "campaigns" (VList [])) with
          | Ok campaigns => flat_map campaign_records campaigns
          | Raise _ => []
          end
      | _ => []
      end
  | _ => []
  end.

(** The metric [m] of the ad [a] of the campaign [c] of a page: the
    response and its [data] are objects, [c] is an item of [campaigns],
    [a] an item of the [ads] of [c], [m] an item of the [metrics] of [a],
    the three collections being iterable and [c], [a], [m] objects. *)
Definition metric_of_page (response : value)
    (c a m : list (string * value)) : Prop :=
  exists r data campaigns ads metrics,
    response = VDict r
    /\ dict_get r "data" (VDict []) = VDict data
    /\ py_iter (dict_get data "campaigns" (VList [])) = Ok campaigns
    /\ In (VDict c) campaigns
    /\ py_iter (dict_get c "ads" (VList [])) = Ok ads
    /\ In (VDict a) ads
    /\ py_iter (dict_get a "metrics" (VList [])) = Ok metrics
    /\ In (VDict m) metrics.

(** A record with the eight fields, in the order of the source. *)
Definition has_fields (r : value) : Prop :=
  exists fields,
    r = VDict fields
    /\ map fst fields
       = ["campaign"; "ad_name"; "date"; "cost"; "impressions"; "clicks";
          "conversions"; "revenue"].

Definition is_object (v : value) : bool :=
  match v with
  | VDict _ => true
  | _ => false
  end.

(** A page all of whose parts have the expected form: the response and
    its [data] are objects, [campaigns], every [ads] and every [metrics]
    are iterable, and their items are objects. *)
Definition items_all (f : value -> bool) (collection : value) : bool :=
  match py_iter collection with
  | Ok items => forallb f items
  | Raise _ => false
  end.

Definition ad_clean (ad : value) : bool :=
  match ad with
  | VDict a => items_all is_object (dict_get a "metrics" (VList []))
  | _ => false
  end.

Definition campaign_clean (campaign : value) : bool :=
  match campaign with
  | VDict c => items_all ad_clean (dict_get c "ads" (VList []))
  | _ => false
  end.

Definition page_clean (response : value) : bool :=
  match response with
  | VDict r =>
      match dict_get r "data" (VDict []) with
      | VDict data =>
          items_all campaign_clean (dict_get data "campaigns" (VList []))
      | _ => false
      end
  | _ => false
  end.

(** A computation that returns and has logged nothing. *)
Definition is_quiet {A} (m : W A) : bool :=
  match m with
  | (Ok _, []) => true
  | _ => false
  end.

Definition is_log (ev : event) : bool :=
  match ev with
  | EvLog _ _ _ => true
  | _ => false
  end.

(** A computation whose only effect is to log. *)
Definition only_logs {A} (m : W A) : Prop :=
  Forall (fun ev => is_log ev = true) (snd m).

(** What [parse_records] returns or raises, without its log. *)
Definition records_of (response : value) : result (list value) :=
  fst (parse_records response).

End Flatten.

(** ** The world of [fetch_data] and [load_to_bigquery] *)

Record world : Type := mkWorld {
  calls : nat;                 (* HTTP requests issued so far *)
  trace : list event           (* every effect so far, oldest first *)
}.

Definition init : world := mkWorld 0 [].

Definition M (A : Type) : Type := world -> result A * world.

Module Eff.

Definition ret {A} (a : A) : M A := fun w => (Ok a, w).

Definition bind {A B} (m : M A) (k : A -> M B) : M B :=
  fun w =>
    match m w with
    | (Ok a, w') => k a w'
    | (Raise e, w') => (Raise e, w')
    end.

Definition raise {A} (e : exn) : M A := fun w => (Raise e, w).

Definition lift {A} (r : result A) : M A := fun w => (r, w).

Definition emit (e : event) : M unit :=
  fun w => (Ok tt, mkWorld (calls w) (trace w ++ [e])).

Definition log (lvl : level) (template : string) (args : list log_arg) : M unit :=
  emit (EvLog lvl template args).

(** Run a computation that only logs. *)
Definition logging {A} (m : Flatten.W A) : M A :=
  fun w => (fst m, mkWorld (calls w) (trace w ++ snd m)).

(** [try: m except Exception as e: h e]; what [h] raises is not caught. *)
Definition try_except {A} (m : M A) (h : exn -> M A) : M A :=
  fun w =>
    match m w with
    | (Ok a, w') => (Ok a, w')
    | (Raise e, w') => h e w'
    end.

(** [time.sleep(seconds)] on an integer. The length is first converted
    to nanoseconds in a signed 64-bit integer, which fails with
    [OverflowError] for a length beyond 9223372036 seconds in magnitude;
    then a negative length is refused with [ValueError]; otherwise the
    call blocks for that long. *)
Definition sleep_max : Z := 9223372036.

Definition sleep_refused (seconds : Z) : option exn :=
  if (seconds <? - sleep_max) || (sleep_max <? seconds)
  then Some (OverflowError "timestamp too large to convert to C _PyTime_t")
  else if seconds <? 0
  then Some (ValueError "sleep length must be non-negative")
  else None.

Definition sleep (seconds : Z) : M unit :=
  match sleep_refused seconds with
  | Some e => raise e
  | None => emit (EvSleep seconds)
  end.

(** A computation that only ever appends to the trace. *)
Definition extends {A} (m : M A) : Prop :=
  forall w r w', m w = (r, w') -> exists tail, trace w' = trace w ++ tail.

(** A computation that only appends events satisfying [P]. *)
Definition emits (P : event -> Prop) {A} (m : M A) : Prop :=
  forall w r w',
    m w = (r, w') -> exists tail, trace w' = trace w ++ tail /\ Forall P tail.

End Eff.

Declare Scope eff_scope.
Delimit Scope eff_scope with M.
Notation "x <- m ;; k" := (Eff.bind m (fun x => k))
  (at level 61, m at next level, right associativity) : eff_scope.
Notation "m ;; k" := (Eff.bind m (fun _ => k))
  (at level 61, right associativity) : eff_scope.

(** ** Paginated fetch with retry: [fetch_data] *)

(** What one HTTP attempt (lines 42-44: [requests.get], [raise_for_status],
    [response.json()]) comes to: an exception, or the decoded body. *)
Inductive response : Type :=
| Failed (e : exn)
| Body (response_json : value).

(** What [fetch_data] returns: the list [all_records], or [None]. *)
Inductive fetched : Type :=
| Records (all_records : list value)
| PyNone.

(** How the [for attempt in range(max_retries)] loop ends: by [break] with
    the body in hand, or by running out of attempts (its [else] clause). *)
Inductive for_exit : Type :=
| Break (response_json : value)
| Exhausted.

(** How one round of the [while] loop ends. *)
Inductive step : Type :=
| Continue (all_records : list value) (has_next_page cursor : value)
| Return (r : fetched).

Module Fetch.
Import Eff.
Local Open Scope eff_scope.

Section FetchData.

(** The server as this execution sees it: the outcome of the n-th HTTP
    attempt, n counted from 0 over the whole call. The client is
    deterministic, so any server behaviour is one such sequence. *)
Variable server : nat -> response.

(** The arguments of [fetch_data]. [max_retries], [delay] and
    [request_timeout] are integers of any sign, as their defaults 3, 5
    and 30 are integers. *)
Variables access_token start_date end_date identifier : string.
Variables max_retries delay request_timeout : Z.

(** Lines 42-44 as one step: the request is issued, counted, and answered
    by the server. *)
Definition http_get (req : request) : M value :=
  fun w =>
    let w' := mkWorld (S (calls w)) (trace w ++ [EvRequest req]) in
    match server (calls w) with
    | Failed e => (Raise e, w')
    | Body response_json => (Ok response_json, w')
    end.

(** [delay * (2 ** attempt)], lines 46 and 56. *)
Definition wait_time (attempt : nat) : Z := delay * 2 ^ Z.of_nat attempt.

(** The warnings of lines 47 and 57 print the wait in decimal. An
    interpreter that bounds the integers it prints
    ([sys.int_max_str_digits], 4300 digits) fails on a longer one before
    the warning is logged; the loop below is that of waits of at most
    4300 digits, [printable]. *)
Definition printable (n : Z) : Prop := Z.abs n < 10 ^ 4300.

(** Lines 40-58, for the attempts still to run. [None] from the [try]
    means its [except] branch ran and the loop goes on ([continue]). *)
Fixpoint retry_loop (req : request) (attempts : list nat) : M for_exit :=
  match attempts with
  | [] => ret Exhausted
  | attempt :: rest =>
      got <-
        try_except
          (response_json <- http_get req ;;
           ret (Some response_json))
          (fun e =>
             log Warning
               "[Attempt {attempt + 1}] Request error: {e}. Retrying in {wait_time}s..."
               [AInt (Z.of_nat attempt + 1); AExn e; AInt (wait_time attempt)] ;;
             sleep (wait_time attempt) ;;
             ret None) ;;
      match got with
      | None => retry_loop req rest
      | Some response_json =>
          status <- lift (py_get response_json "status" VNone) ;;
          if eq_str status "SUCCESS"
          then
            log Info "Data ready for retrieval." [] ;;
            ret (Break response_json)
          else
            log Warning
              "[Attempt {attempt + 1}] Data processing. Retrying in {wait_time}s..."
              [AInt (Z.of_nat attempt + 1); AInt (wait_time attempt)] ;;
            sleep (wait_time attempt) ;;
            retry_loop req rest
      end
  end.

Definition make_params (cursor : value) : list (string * value) :=
  let params := [ ("start_date", VStr start_date);
                  ("end_date", VStr end_date);
                  ("identifier", VStr identifier) ] in
  if truthy cursor then params ++ [("cursor", cursor)] else params.

Definition make_request (cursor : value) : request :=
  mkRequest "https://api.adserver.com/data"
    [ ("Authorization", ("Bearer " ++ access_token)%string);
      ("Accept", "application/json") ]
    (make_params cursor)
    request_timeout.

(** What follows the [for] loop in a round: its [else] clause when the
    attempts ran out, lines 63-75 after a [break]. *)
Definition after_retry (all_records : list value) (cursor : value)
    (exit : for_exit) : M step :=
  match exit with
  | Exhausted =>
      log Error "Max retries exceeded. Data still processing." [] ;;
      ret (Return PyNone)
  | Break response_json =>
      got <-
        try_except
          (log Info "Parsing records at cursor point: {cursor}" [AVal cursor] ;;
           records <- logging (Flatten.parse_records response_json) ;;
           ret (Some records))
          (fun e =>
             log Error "Error during parsing records: {e}" [AExn e] ;;
             ret None) ;;
      match got with
      | None => ret (Return PyNone)
      | Some records =>
          let all_records := all_records ++ records in
          has_next_page <- lift (py_get response_json "hasNextPage" (VBool false)) ;;
          cursor <- lift (py_get response_json "nextCursor" VNone) ;;
          log Info
            "Fetched {len(records)} records. hasNextPage={has_next_page}, nextCursor={cursor}"
            [AInt (Z.of_nat (List.length records)); AVal has_next_page; AVal cursor] ;;
          ret (Continue all_records has_next_page cursor)
      end
  end.

(** The body of the [while] loop, lines 30-75. *)
Definition page (all_records : list value) (cursor : value) : M step :=
  exit <- retry_loop (make_request cursor) (seq 0 (Z.to_nat max_retries)) ;;
  after_retry all_records cursor exit.

(** [while has_next_page:] with at most [fuel] rounds; [None] when the
    fuel is used up while the condition still holds. *)
Fixpoint fetch_loop (fuel : nat) (all_records : list value)
    (has_next_page cursor : value) (w : world)
  : option (result fetched * world) :=
  if truthy has_next_page then
    match fuel with
    | O => None
    | S fuel' =>
        match page all_records cursor w with
        | (Ok (Continue all_records' has_next_page' cursor'), w') =>
            fetch_loop fuel' all_records' has_next_page' cursor' w'
        | (Ok (Return r), w') => Some (Ok r, w')
        | (Raise e, w') => Some (Raise e, w')
        end
    end
  else Some (Ok (Records all_records), w).

Definition fetch_data (fuel : nat) : option (result fetched * world) :=
  fetch_loop fuel [] (VBool true) VNone init.

(** *** Vocabulary for the properties *)

(** A failed attempt: a transport error, or a body that is an object
    whose status is not "SUCCESS". (A body that is no object at all is
    neither a failure nor a success: [response_json.get] raises on it.) *)
Definition is_failure (r : response) : bool :=
  match r with
  | Failed _ => true
  | Body (VDict d) => negb (eq_str (dict_get d "status" VNone) "SUCCESS")
  | Body _ => false
  end.

(** The page an attempt delivers, if its status is "SUCCESS". *)
Definition page_of (r : response) : option value :=
  match r with
  | Body (VDict d) =>
      if eq_str (dict_get d "status" VNone) "SUCCESS" then Some (VDict d)
      else None
  | _ => None
  end.

(** The outcomes of the [n] attempts from the [first]-th on, and the
    pages among them. *)
Definition received (first n : nat) : list response :=
  map server (seq first n).

Definition pages (rs : list response) : list value :=
  flat_map (fun r => match page_of r with Some p => [p] | None => [] end) rs.

(** What a failed attempt with index [attempt] leaves in the trace: the
    request, the warning, the sleep. *)
Definition failure_events (req : request) (attempt : nat) (r : response)
  : list event :=
  match r with
  | Failed e =>
      [ EvRequest req;
        EvLog Warning
          "[Attempt {attempt + 1}] Request error: {e}. Retrying in {wait_time}s..."
          [AInt (Z.of_nat attempt + 1); AExn e; AInt (wait_time attempt)];
        EvSleep (wait_time attempt) ]
  | Body _ =>
      [ EvRequest req;
        EvLog Warning
          "[Attempt {attempt + 1}] Data processing. Retrying in {wait_time}s..."
          [AInt (Z.of_nat attempt + 1); AInt (wait_time attempt)];
        EvSleep (wait_time attempt) ]
  end.

(** The waits of the attempts 0, ..., k-1 are lengths that [time.sleep]
    accepts. *)
Definition waits_accepted (k : nat) : Prop :=
  forall j, (j < k)%nat -> 0 <= wait_time j <= sleep_max.

(** The effects [fetch_data] has: requests built by [make_request] for
    some cursor, sleeps of [wait_time] for some attempt, log records. *)
Definition fetch_effect (ev : event) : Prop :=
  match ev with
  | EvRequest req => exists cursor, req = make_request cursor
  | EvSleep seconds => exists attempt, seconds = wait_time attempt
  | EvLog _ _ _ => True
  | EvSubmit _ _ _ _ => False
  | EvWait _ => False
  end.

(** The trace of [k] failed attempts in a row, with indices [i], [i+1],
    ... answered by the calls [first], [first+1], ... *)
Definition backoff_events (req : request) (i k first : nat) : list event :=
  flat_map (fun j => failure_events req (i + j) (server (first + j))) (seq 0 k).

End FetchData.

(** The sleeps and the requests of a trace, in order. *)
Definition sleeps (tr : list event) : list Z :=
  flat_map (fun ev => match ev with EvSleep s => [s] | _ => [] end) tr.

Definition requests (tr : list event) : list request :=
  flat_map (fun ev => match ev with EvRequest r => [r] | _ => [] end) tr.

Definition total (l : list Z) : Z := fold_right Z.add 0 l.

(** Whether a page asks for a further page: line 72 and the loop test. *)
Definition has_next (page : value) : bool :=
  match py_get page "hasNextPage" (VBool false) with
  | Ok v => truthy v
  | Raise _ => false
  end.

(** All pages flattened, in page order. *)
Fixpoint flatten_pages (ps : list value) : result (list value) :=
  match ps with
  | [] => Ok []
  | p :: rest =>
      match Flatten.records_of p, flatten_pages rest with
      | Ok records, Ok more => Ok (records ++ more)
      | Raise e, _ => Raise e
      | _, Raise e => Raise e
      end
  end.

(** A pagination that is exhausted: every page but the last asks for a
    further page, and the last one does not. *)
Fixpoint complete (ps : list value) : bool :=
  match ps with
  | [] => false
  | p :: rest =>
      match rest with
      | [] => negb (has_next p)
      | _ => has_next p && complete rest
      end
  end.

(** The cursor a page gives for the next one: line 73. *)
Definition next_cursor (page : value) : value :=
  match py_get page "nextCursor" VNone with
  | Ok cursor => cursor
  | Raise _ => VNone
  end.

Section Range.

Variables access_token start_date end_date identifier : string.
Variable request_timeout : Z.

(** A source of pages: the page it holds for a request, which names the
    range (start date, end date, identifier) and the cursor. *)
Variable source : request -> value.

(** The pages of the requested range, as the source holds them: its
    answer to the request without cursor, then, as long as a page
    announces a further one, its answer to the request for the cursor
    that the page gives; the last page is the first one that announces
    no further page. [None] if [fuel] pages do not reach the last one. *)
Fixpoint walk (fuel : nat) (cursor : value) : option (list value) :=
  match fuel with
  | O => None
  | S fuel' =>
      let page :=
        source (make_request access_token start_date end_date identifier
                  request_timeout cursor) in
      if has_next page
      then option_map (cons page) (walk fuel' (next_cursor page))
      else Some [page]
  end.

(** Along a trace, the server delivered the pages of the source: every
    answer with status "SUCCESS" is the page the source holds for the
    request it answers (the n-th request of the trace for the n-th
    answer). *)
Definition answers_by (server : nat -> response) (tr : list event) : Prop :=
  forall n req page,
    nth_error (requests tr) n = Some req ->
    page_of (server n) = Some page ->
    page = source req.

End Range.

End Fetch.

(** ** Warehouse load: [load_to_bigquery] *)

Record load_result : Type := mkResult {
  output_rows : Z
}.

(** A submitted job: its identifier and what [load_job.result()] does. *)
Record load_job : Type := mkJob {
  job_id : string;
  job_result : result load_result
}.

(** The two methods of the warehouse client that the loader calls, with
    the arguments [data], [table_id] and [job_config]. *)
Record client : Type := mkClient {
  load_table_from_dataframe :
    load_data -> string -> job_config -> result load_job;
  load_table_from_json :
    load_data -> string -> job_config -> result load_job
}.

Module Load.
Import Eff.
Local Open Scope eff_scope.

(** [data.columns]: a frame has them, a list has no such attribute. The
    column labels are strings, on which [str] is the identity. *)
Definition data_columns (data : load_data) : result (list string) :=
  match data with
  | Frame df => Ok (columns df)
  | Rows _ => Raise (AttributeError "list" "columns")
  end.

Definition frame_config (cols : list string) : job_config :=
  LoadJobConfig
    (Some (map (fun col => SchemaField col "STRING") cols))
    None
    "WRITE_APPEND"
    "CREATE_IF_NEEDED"
    ["ALLOW_FIELD_ADDITION"; "ALLOW_FIELD_RELAXATION"].

Definition json_config : job_config :=
  LoadJobConfig
    None
    (Some "NEWLINE_DELIMITED_JSON")
    "WRITE_APPEND"
    "CREATE_IF_NEEDED"
    ["ALLOW_FIELD_ADDITION"; "ALLOW_FIELD_RELAXATION"].

(** A call of a client method: recorded, then answered by the client. *)
Definition submit (method : string)
    (call : load_data -> string -> job_config -> result load_job)
    (data : load_data) (table_id : string) (config : job_config) : M load_job :=
  emit (EvSubmit method data table_id config) ;;
  lift (call data table_id config).

(** [load_job.result()]: blocks until the job is over. *)
Definition wait (job : load_job) : M load_result :=
  emit (EvWait (job_id job)) ;;
  lift (job_result job).

Definition make_table_id (dataset_id table_name formatted_date : string) : string :=
  (dataset_id ++ "." ++ table_name ++ "_" ++ formatted_date)%string.

Definition load_to_bigquery (bq_client : client) (data : load_data)
    (dataset_id table_name formatted_date data_format : string)
  : M load_result :=
  let table_id := make_table_id dataset_id table_name formatted_date in
  log Info "Loading data into BigQuery table: {table_id}" [AStr table_id] ;;
  try_except
    (load_job <-
       (if String.eqb data_format "df" then
          cols <- lift (data_columns data) ;;
          submit "load_table_from_dataframe"
            (load_table_from_dataframe bq_client)
            data table_id (frame_config cols)
        else if String.eqb data_format "json" then
          submit "load_table_from_json"
            (load_table_from_json bq_client)
            data table_id json_config
        else
          raise (ValueError ("Unsupported data_format: " ++ data_format)%string)) ;;
     result <- wait load_job ;;
     log Info
       "BigQuery load job {load_job.job_id} succeeded: {result.output_rows} rows"
       [AStr (job_id load_job); AInt (output_rows result)] ;;
     ret result)
    (fun e =>
       log Error "BigQuery load job failed for table {table_id}: {e}"
         [AStr table_id; AExn e] ;;
       raise e).

(** What the client answers to the submission the loader makes for this
    [data_format], if it gets as far as making one (lines 89-117). *)
Definition submitted (bq_client : client) (data : load_data)
    (table_id data_format : string) : option (result load_job) :=
  if String.eqb data_format "df" then
    match data_columns data with
    | Ok cols =>
        Some (load_table_from_dataframe bq_client data table_id (frame_config cols))
    | Raise _ => None
    end
  else if String.eqb data_format "json" then
    Some (load_table_from_json bq_client data table_id json_config)
  else None.

Definition is_warehouse_call (ev : event) : bool :=
  match ev with
  | EvSubmit _ _ _ _ | EvWait _ => true
  | _ => false
  end.

Definition is_submit (ev : event) : bool :=
  match ev with
  | EvSubmit _ _ _ _ => true
  | _ => false
  end.

(** The warehouse operations in a trace, and the job submissions in it. *)
Definition warehouse_calls (tr : list event) : list event :=
  filter is_warehouse_call tr.

Definition submissions (tr : list event) : list event :=
  filter is_submit tr.

Definition is_error_log (ev : event) : bool :=
  match ev with
  | EvLog Error _ _ => true
  | _ => false
  end.

Definition error_logs (tr : list event) : list event :=
  filter is_error_log tr.

(** The write policy of a submission: these data, this table, rows
    appended, table created if needed, schema allowed to widen. *)
Definition appends_to (data : load_data) (table_id : string) (ev : event)
  : Prop :=
  match ev with
  | EvSubmit _ d t config =>
      d = data
      /\ t = table_id
      /\ write_disposition config = "WRITE_APPEND"
      /\ create_disposition config = "CREATE_IF_NEEDED"
      /\ schema_update_options config
         = ["ALLOW_FIELD_ADDITION"; "ALLOW_FIELD_RELAXATION"]
  | _ => True
  end.

End Load.

(** ** Sample payloads *)

Module Samples.

Definition metric_2025_06_01 : value :=
  VDict [ ("date", VStr "2025-06-01"); ("cost", VInt 10);
          ("impressions", VInt 100); ("clicks", VInt 5);
          ("conversions", VInt 1); ("revenue", VInt 20) ].

Definition ad_A1 : value :=
  VDict [ ("name", VStr "A1"); ("metrics", VList [metric_2025_06_01]) ].

(** The page of the specification's worked example. *)
Definition example_fields : list (string * value) :=
  [ ("status", VStr "SUCCESS");
    ("data",
     VDict [ ("campaigns",
              VList [ VDict [ ("name", VStr "C1");
                              ("ads", VList [ad_A1]) ] ]) ]);
    ("hasNextPage", VBool false) ].

Definition example_page : value := VDict example_fields.

Definition example_record : value :=
  VDict [ ("campaign", VStr "C1"); ("ad_name", VStr "A1");
          ("date", VStr "2025-06-01"); ("cost", VInt 10);
          ("impressions", VInt 100); ("clicks", VInt 5);
          ("conversions", VInt 1); ("revenue", VInt 20) ].

(** A page whose first campaign has [ads: null] and whose second campaign
    is well formed. *)
Definition null_ads_page : value :=
  VDict [ ("status", VStr "SUCCESS");
          ("data",
           VDict [ ("campaigns",
                    VList [ VDict [ ("name", VStr "C0"); ("ads", VNone) ];
                            VDict [ ("name", VStr "C1");
                                    ("ads", VList [ad_A1]) ] ]) ]);
          ("hasNextPage", VBool false) ].

(** A page with [campaigns: null]. *)
Definition null_campaigns_page : value :=
  VDict [ ("status", VStr "SUCCESS");
          ("data", VDict [ ("campaigns", VNone) ]);
          ("hasNextPage", VBool false) ].

(** A campaign with one well-formed ad and one ad that is no object. *)
Definition mixed_ads_page : value :=
  VDict [ ("status", VStr "SUCCESS");
          ("data",
           VDict [ ("campaigns",
                    VList [ VDict [ ("name", VStr "C1");
                                    ("ads", VList [VStr "oops"; ad_A1]) ] ]) ]);
          ("hasNextPage", VBool false) ].

(** A page whose only campaign and ad have no [name], and whose only
    metric has a [cost] and nothing else. *)
Definition sparse_campaign : list (string * value) :=
  [ ("ads", VList [ VDict [ ("metrics", VList [ VDict [ ("cost", VInt 7) ] ]) ] ]) ].

Definition sparse_page : value :=
  VDict [ ("status", VStr "SUCCESS");
          ("data", VDict [ ("campaigns", VList [ VDict sparse_campaign ]) ]);
          ("hasNextPage", VBool false) ].

Definition sparse_record : value :=
  VDict [ ("campaign", VStr ""); ("ad_name", VStr "");
          ("date", VStr ""); ("cost", VInt 7);
          ("impressions", VInt 0); ("clicks", VInt 0);
          ("conversions", VInt 0); ("revenue", VInt 0) ].

(** A page that announces a further page and gives no cursor for it. *)
Definition fields_without_cursor : list (string * value) :=
  [ ("status", VStr "SUCCESS");
    ("data",
     VDict [ ("campaigns",
              VList [ VDict [ ("name", VStr "C1");
                              ("ads", VList [ad_A1]) ] ]) ]);
    ("hasNextPage", VBool true);
    ("nextCursor", VNone) ].

Definition page_without_cursor : value := VDict fields_without_cursor.

Definition record_C0 : value :=
  VDict [ ("campaign", VStr "C0"); ("ad_name", VStr "A1");
          ("date", VStr "2025-06-01"); ("cost", VInt 10);
          ("impressions", VInt 100); ("clicks", VInt 5);
          ("conversions", VInt 1); ("revenue", VInt 20) ].

(** A first page that announces a further page under the cursor "abc". *)
Definition page_with_cursor : value :=
  VDict [ ("status", VStr "SUCCESS");
          ("data",
           VDict [ ("campaigns",
                    VList [ VDict [ ("name", VStr "C0");
                                    ("ads", VList [ad_A1]) ] ]) ]);
          ("hasNextPage", VBool true);
          ("nextCursor", VStr "abc") ].

Definition pending : response :=
  Body (VDict [ ("status", VStr "PENDING") ]).

Definition unreachable : response :=
  Failed (ExternalError "ConnectionError" "connection refused").

(** A server that answers the attempts by the items of [l], in order, and
    by [default] once they are used up. *)
Definition script (l : list response) (default : response) : nat -> response :=
  fun n => nth n l default.

(** A page without a cursor for the next one, then the last page. *)
Definition cursorless_server : nat -> response :=
  script [Body page_without_cursor; Body example_page] unreachable.

(** A first page, a second page that is not ready at once, nothing more. *)
Definition two_page_server : nat -> response :=
  script [Body page_with_cursor; pending; Body example_page] unreachable.

(** A first page, and a second page that is never ready. *)
Definition stalling_server : nat -> response :=
  script [Body page_with_cursor] pending.

(** [fetch_data] with the test's arguments and the default [max_retries],
    [delay] and [request_timeout] of the source. *)
Definition default_fetch (server : nat -> response) (fuel : nat)
  : option (result fetched * world) :=
  Fetch.fetch_data server "dummy-token" "2025-06-01" "2025-06-30" "test"
    3 5 30 fuel.

Definition first_request : request :=
  Fetch.make_request "dummy-token" "2025-06-01" "2025-06-30" "test" 30 VNone.

Definition default_loop (server : nat -> response) :=
  Fetch.fetch_loop server "dummy-token" "2025-06-01" "2025-06-30" "test"
    3 5 30.

(** An answer that is not ready, then a body that is a JSON array. *)
Definition garbled_server : nat -> response :=
  script [pending; Body (VList [])] unreachable.

(** A transport error, then the page of the worked example. *)
Definition recovering_server : nat -> response :=
  script [unreachable; Body example_page] unreachable.

Definition fields_with_cursor : list (string * value) :=
  [ ("status", VStr "SUCCESS");
    ("data",
     VDict [ ("campaigns",
              VList [ VDict [ ("name", VStr "C0");
                              ("ads", VList [ad_A1]) ] ]) ]);
    ("hasNextPage", VBool true);
    ("nextCursor", VStr "abc") ].

(** Two pages, each delivered at the first attempt. *)
Definition two_pages : list (list (string * value)) :=
  [fields_with_cursor; example_fields].

Definition paged_server : nat -> response :=
  script (map (fun d => Body (VDict d)) two_pages) unreachable.

(** The source behind [paged_server]: the first page for a request
    without cursor, the page of the worked example for any cursor. *)
Definition paged_source (req : request) : value :=
  match lookup "cursor" (params req) with
  | Some _ => example_page
  | None => VDict fields_with_cursor
  end.

(** A first answer with status "SUCCESS", no further page, [ads: null]. *)
Definition null_ads_server : nat -> response :=
  script [Body null_ads_page] unreachable.

(** A page without a cursor for the next one that is not ready at once,
    then the last page. *)
Definition late_cursorless_server : nat -> response :=
  script [pending; Body page_without_cursor; Body example_page] unreachable.

(** A first page that arrives after a transport error, then the last
    page. *)
Definition late_paged_server : nat -> response :=
  script [unreachable; Body page_with_cursor; Body example_page] unreachable.

(** A delay of 10^10 seconds, beyond what [time.sleep] accepts. *)
Definition long_delay : Z := 10000000000.

(** The same page for ever, announcing a further page each time. *)
Definition looping_server : nat -> response :=
  fun _ => Body page_without_cursor.

Definition forbidden : exn := ExternalError "Forbidden" "403 access denied".

(** A warehouse client that refuses every submission. *)
Definition refusing_client : client :=
  mkClient (fun _ _ _ => Raise forbidden) (fun _ _ _ => Raise forbidden).

(** A warehouse client whose jobs are accepted and then fail. *)
Definition failing_job_client : client :=
  mkClient (fun _ _ _ => Ok (mkJob "job_1" (Raise forbidden)))
           (fun _ _ _ => Ok (mkJob "job_1" (Raise forbidden))).

End Samples.

(** * Properties *)

(** Reassociate a trace built by successive effects into one list. *)
Ltac norm_trace :=
  cbn [calls trace fst snd]; rewrite <- ?app_assoc; cbn [app].

(** ** The loader *)

Module LoadFacts.
Import Eff Load.

Lemma warehouse_calls_app (tr1 tr2 : list event) :
  warehouse_calls (tr1 ++ tr2) = warehouse_calls tr1 ++ warehouse_calls tr2.
Proof. apply filter_app. Qed.

Lemma submissions_app (tr1 tr2 : list event) :
  submissions (tr1 ++ tr2) = submissions tr1 ++ submissions tr2.
Proof. apply filter_app. Qed.

(** C7: a [data_format] other than "df" and "json" makes the loader raise
    [ValueError], and the run adds no warehouse client operation to the
    trace. *)
Theorem load_unsupported_format
    (bq_client : client) (data : load_data)
    (dataset_id table_name formatted_date data_format : string) (w : world) :
  data_format <> "df" ->
  data_format <> "json" ->
  let run :=
    load_to_bigquery bq_client data dataset_id table_name formatted_date
      data_format w in
  fst run = Raise (ValueError ("Unsupported data_format: " ++ data_format)%string)
  /\ warehouse_calls (trace (snd run)) = warehouse_calls (trace w).
Proof.
  intros Hdf Hjson run. subst run.
  apply String.eqb_neq in Hdf. apply String.eqb_neq in Hjson.
  unfold load_to_bigquery, try_except, bind, log, emit, raise.
  rewrite Hdf, Hjson. cbn [fst snd trace].
  split; [reflexivity|].
  rewrite <- app_assoc, warehouse_calls_app. cbn. apply app_nil_r.
Qed.

Lemma load_unsupported_format_witness :
  let run :=
    load_to_bigquery Samples.refusing_client (Rows []) "test_dataset" "test_table" "20250701" "csv" init in
  fst run = Raise (ValueError "Unsupported data_format: csv")
  /\ warehouse_calls (trace (snd run)) = [].
Proof.
  apply (load_unsupported_format _ (Rows []) "test_dataset" "test_table"
           "20250701" "csv" init); discriminate.
Defined.

(** C9: when the client raises [e] on the submission, or the submitted
    job raises [e] from [result()], the loader raises that same [e]; the
    last thing it does before is to log an error carrying the table
    identifier and [e]; and it has submitted exactly one job. *)
Theorem load_failure_propagates
    (bq_client : client) (data : load_data)
    (dataset_id table_name formatted_date data_format : string) (w : world)
    (e : exn) :
  let table_id := make_table_id dataset_id table_name formatted_date in
  submitted bq_client data table_id data_format = Some (Raise e)
  \/ (exists job,
        submitted bq_client data table_id data_format = Some (Ok job)
        /\ job_result job = Raise e) ->
  exists added,
    load_to_bigquery bq_client data dataset_id table_name formatted_date
      data_format w
    = (Raise e,
       mkWorld (calls w)
         (trace w ++ added ++
          [EvLog Error "BigQuery load job failed for table {table_id}: {e}"
             [AStr table_id; AExn e]]))
    /\ List.length (submissions added) = 1%nat
    /\ (List.length (warehouse_calls added) <= 2)%nat.
Proof.
  intros table_id H.
  unfold submitted in H.
  cbv [load_to_bigquery try_except bind log emit raise lift submit wait ret].
  fold table_id.
  destruct (String.eqb data_format "df").
  - destruct (data_columns data) as [cols|e'].
    + destruct H as [H | [job [H Hres]]]; injection H as H;
        cbn [calls trace]; rewrite H.
      * exists [EvLog Info "Loading data into BigQuery table: {table_id}"
                  [AStr table_id];
                EvSubmit "load_table_from_dataframe" data table_id
                  (frame_config cols)].
        split; [norm_trace; reflexivity | split; cbn; lia].
      * rewrite Hres.
        exists [EvLog Info "Loading data into BigQuery table: {table_id}"
                  [AStr table_id];
                EvSubmit "load_table_from_dataframe" data table_id
                  (frame_config cols);
                EvWait (job_id job)].
        split; [norm_trace; reflexivity | split; cbn; lia].
    + destruct H as [H | [job [H _]]]; discriminate.
  - destruct (String.eqb data_format "json").
    + destruct H as [H | [job [H Hres]]]; injection H as H;
        cbn [calls trace]; rewrite H.
      * exists [EvLog Info "Loading data into BigQuery table: {table_id}"
                  [AStr table_id];
                EvSubmit "load_table_from_json" data table_id json_config].
        split; [norm_trace; reflexivity | split; cbn; lia].
      * rewrite Hres.
        exists [EvLog Info "Loading data into BigQuery table: {table_id}"
                  [AStr table_id];
                EvSubmit "load_table_from_json" data table_id json_config;
                EvWait (job_id job)].
        split; [norm_trace; reflexivity | split; cbn; lia].
    + destruct H as [H | [job [H _]]]; discriminate.
Qed.

Lemma load_failure_propagates_witness :
  exists added,
    load_to_bigquery Samples.failing_job_client (Rows [VDict [("col_1", VStr "a")]])
      "test_dataset" "test_table" "20250701" "json" init
    = (Raise Samples.forbidden,
       mkWorld 0
         ([] ++ added ++
          [EvLog Error "BigQuery load job failed for table {table_id}: {e}"
             [AStr "test_dataset.test_table_20250701";
              AExn Samples.forbidden]]))
    /\ List.length (submissions added) = 1%nat
    /\ (List.length (warehouse_calls added) <= 2)%nat.
Proof.
  apply (load_failure_propagates Samples.failing_job_client
           (Rows [VDict [("col_1", VStr "a")]])
           "test_dataset" "test_table" "20250701" "json" init Samples.forbidden).
  right. exists (mkJob "job_1" (Raise Samples.forbidden)).
  split; reflexivity.
Defined.

(** *** Further properties of the loader *)

(** Evaluate a run of the loader, case by case on the format, on the data
    and on what the client answers. *)
Ltac run_loader H :=
  cbv [load_to_bigquery try_except bind log emit raise lift submit wait ret]
    in H;
  repeat match type of H with
    | context [String.eqb ?a ?b] => destruct (String.eqb a b)
    | context [data_columns ?d] => destruct (data_columns d)
    | context [load_table_from_dataframe ?c ?d ?t ?g] =>
        destruct (load_table_from_dataframe c d t g)
    | context [load_table_from_json ?c ?d ?t ?g] =>
        destruct (load_table_from_json c d t g)
    | context [job_result ?j] => destruct (job_result j)
    end;
  cbn [calls trace] in H; rewrite <- ?app_assoc in H; cbn [app] in H;
  injection H as <- <-; cbn [calls trace].

(** X1: with "json", a job the client accepts and that succeeds: the loader
    returns the job's result, after one submission through
    [load_table_from_json] without schema, in newline-delimited JSON,
    appending, and one wait for the job; it logs the target table
    first and the job with its row count last. *)
Theorem load_json_success
    (bq_client : client) (data : load_data)
    (dataset_id table_name formatted_date : string) (w : world)
    (job : load_job) (res : load_result) :
  let table_id := make_table_id dataset_id table_name formatted_date in
  let config :=
    LoadJobConfig None (Some "NEWLINE_DELIMITED_JSON") "WRITE_APPEND"
      "CREATE_IF_NEEDED" ["ALLOW_FIELD_ADDITION"; "ALLOW_FIELD_RELAXATION"] in
  load_table_from_json bq_client data table_id config = Ok job ->
  job_result job = Ok res ->
  load_to_bigquery bq_client data dataset_id table_name formatted_date "json" w
  = (Ok res,
     mkWorld (calls w)
       (trace w ++
        [ EvLog Info "Loading data into BigQuery table: {table_id}"
            [AStr table_id];
          EvSubmit "load_table_from_json" data table_id config;
          EvWait (job_id job);
          EvLog Info
            "BigQuery load job {load_job.job_id} succeeded: {result.output_rows} rows"
            [AStr (job_id job); AInt (output_rows res)] ])).
Proof.
  intros table_id config Hjob Hres.
  cbv [load_to_bigquery try_except bind log emit raise lift submit wait ret].
  fold table_id. cbn [String.eqb Ascii.eqb Bool.eqb].
  change json_config with config. rewrite Hjob. cbn [calls trace].
  rewrite Hres. norm_trace. reflexivity.
Qed.

(** X2: with "df" and a frame, likewise through [load_table_from_dataframe],
    under a schema with one STRING field per column of the frame, in the
    order of the columns. *)
Theorem load_frame_success
    (bq_client : client) (df : dataframe)
    (dataset_id table_name formatted_date : string) (w : world)
    (job : load_job) (res : load_result) :
  let table_id := make_table_id dataset_id table_name formatted_date in
  let config :=
    LoadJobConfig
      (Some (map (fun col => SchemaField col "STRING") (columns df)))
      None "WRITE_APPEND" "CREATE_IF_NEEDED"
      ["ALLOW_FIELD_ADDITION"; "ALLOW_FIELD_RELAXATION"] in
  load_table_from_dataframe bq_client (Frame df) table_id config = Ok job ->
  job_result job = Ok res ->
  load_to_bigquery bq_client (Frame df) dataset_id table_name formatted_date
    "df" w
  = (Ok res,
     mkWorld (calls w)
       (trace w ++
        [ EvLog Info "Loading data into BigQuery table: {table_id}"
            [AStr table_id];
          EvSubmit "load_table_from_dataframe" (Frame df) table_id config;
          EvWait (job_id job);
          EvLog Info
            "BigQuery load job {load_job.job_id} succeeded: {result.output_rows} rows"
            [AStr (job_id job); AInt (output_rows res)] ])).
Proof.
  intros table_id config Hjob Hres.
  cbv [load_to_bigquery try_except bind log emit raise lift submit wait ret].
  fold table_id. cbn [String.eqb Ascii.eqb Bool.eqb data_columns].
  change (frame_config (columns df)) with config. rewrite Hjob.
  cbn [calls trace]. rewrite Hres. norm_trace. reflexivity.
Qed.

(** X3: with "df" and data that are a list, not a frame, reading the columns
    raises [AttributeError]: it is logged with the table and raised
    again, and no client method has been called. *)
Theorem load_frame_format_on_list
    (bq_client : client) (l : list value)
    (dataset_id table_name formatted_date : string) (w : world) :
  let table_id := make_table_id dataset_id table_name formatted_date in
  load_to_bigquery bq_client (Rows l) dataset_id table_name formatted_date
    "df" w
  = (Raise (AttributeError "list" "columns"),
     mkWorld (calls w)
       (trace w ++
        [ EvLog Info "Loading data into BigQuery table: {table_id}"
            [AStr table_id];
          EvLog Error "BigQuery load job failed for table {table_id}: {e}"
            [AStr table_id; AExn (AttributeError "list" "columns")] ])).
Proof.
  intros table_id.
  cbv [load_to_bigquery try_except bind log emit raise lift submit wait ret].
  fold table_id. cbn [String.eqb Ascii.eqb Bool.eqb data_columns].
  norm_trace. reflexivity.
Qed.

(** X4: whatever the format, the data and the client: an exception leaves
    the loader only after the error log that carries the table and that
    very exception, which is then the last effect and the only error
    log; a run that returns logs no error. *)
Theorem load_error_logged_last
    (bq_client : client) (data : load_data)
    (dataset_id table_name formatted_date data_format : string) (w : world) :
  let table_id := make_table_id dataset_id table_name formatted_date in
  let run :=
    load_to_bigquery bq_client data dataset_id table_name formatted_date
      data_format w in
  match fst run with
  | Raise e =>
      exists before,
        trace (snd run)
        = trace w ++ before
          ++ [EvLog Error "BigQuery load job failed for table {table_id}: {e}"
                [AStr table_id; AExn e]]
        /\ error_logs before = []
  | Ok _ =>
      exists added,
        trace (snd run) = trace w ++ added /\ error_logs added = []
  end.
Proof.
  intros table_id run. subst run.
  destruct (load_to_bigquery bq_client data dataset_id table_name
              formatted_date data_format w) as [r w'] eqn:H.
  cbn [fst snd]. run_loader H; fold table_id;
    match goal with
    | |- exists before, trace w ++ ?l = trace w ++ before ++ _ /\ _ =>
        exists (removelast l); split; reflexivity
    | |- exists added, _ /\ _ => eexists; split; reflexivity
    end.
Qed.

(** X5: whatever the format, the data and the client: a run submits at most
    one job and waits at most once (at most two client operations), every
    submission is for the caller's data and table with rows appended, the
    table created if needed and the schema allowed to widen, and no HTTP
    request is counted. *)
Theorem load_submits_once
    (bq_client : client) (data : load_data)
    (dataset_id table_name formatted_date data_format : string) (w : world) :
  let table_id := make_table_id dataset_id table_name formatted_date in
  let run :=
    load_to_bigquery bq_client data dataset_id table_name formatted_date
      data_format w in
  calls (snd run) = calls w
  /\ exists added,
       trace (snd run) = trace w ++ added
       /\ (List.length (submissions added) <= 1)%nat
       /\ (List.length (warehouse_calls added) <= 2)%nat
       /\ Forall (appends_to data table_id) added.
Proof.
  intros table_id run. subst run.
  destruct (load_to_bigquery bq_client data dataset_id table_name
              formatted_date data_format w) as [r w'] eqn:H.
  cbn [fst snd]. run_loader H; fold table_id;
    (split; [reflexivity|]); eexists;
    (split; [reflexivity|]);
    (split; [cbn; lia|]); (split; [cbn; lia|]);
    repeat constructor.
Qed.

Lemma load_json_success_witness :
  fst (load_to_bigquery
         (mkClient (fun _ _ _ => Raise Samples.forbidden)
                   (fun _ _ _ => Ok (mkJob "job_1" (Ok (mkResult 2)))))
         (Rows [VDict [("col_1", VStr "a")]; VDict [("col_1", VStr "b")]])
         "test_dataset" "test_table" "20250701" "json" init)
  = Ok (mkResult 2).
Proof.
  rewrite (load_json_success _ _ "test_dataset" "test_table" "20250701" init
             (mkJob "job_1" (Ok (mkResult 2))) (mkResult 2));
    reflexivity.
Defined.

Lemma load_frame_success_witness :
  fst (load_to_bigquery
         (mkClient (fun _ _ _ => Ok (mkJob "job_2" (Ok (mkResult 1))))
                   (fun _ _ _ => Raise Samples.forbidden))
         (Frame (mkFrame ["campaign"; "cost"] [[VStr "C1"; VInt 10]]))
         "test_dataset" "test_table" "20250701" "df" init)
  = Ok (mkResult 1).
Proof.
  rewrite (load_frame_success _ (mkFrame ["campaign"; "cost"]
                                   [[VStr "C1"; VInt 10]])
             "test_dataset" "test_table" "20250701" init
             (mkJob "job_2" (Ok (mkResult 1))) (mkResult 1));
    reflexivity.
Defined.

End LoadFacts.

(** ** The flattener *)

Module FlattenFacts.
Import Flatten.

#[local] Arguments dict_get : simpl never.

Lemma dict_get_missing (d : list (string * value)) (key : string)
    (default : value) :
  lookup key d = None -> dict_get d key default = default.
Proof. unfold dict_get. intros ->. reflexivity. Qed.

Lemma dict_get_present (d : list (string * value)) (key : string)
    (default v : value) :
  lookup key d = Some v -> dict_get d key default = v.
Proof. unfold dict_get. intros ->. reflexivity. Qed.

(** Iterating over a string goes by code points: "a" followed by the two
    bytes of U+00E9 has two items. *)
Example chars_by_code_point :
  let e_acute :=
    String (Ascii.ascii_of_nat 195)
      (String (Ascii.ascii_of_nat 169) EmptyString) in
  py_iter (VStr ("a" ++ e_acute)%string) = Ok [VStr "a"; VStr e_acute].
Proof. reflexivity. Qed.

Lemma make_record_dict (campaign_name ad_name : value)
    (m : list (string * value)) :
  make_record campaign_name ad_name (VDict m)
  = (Ok (record_for campaign_name ad_name m), []).
Proof. reflexivity. Qed.

Lemma make_record_not_dict (campaign_name ad_name metric : value) :
  (forall m, metric <> VDict m) ->
  make_record campaign_name ad_name metric
  = (Raise (AttributeError (type_name metric) "get"), []).
Proof.
  intros H. destruct metric; try reflexivity. now destruct (H d).
Qed.

(** The innermost loop never raises: it extends the accumulator by the
    records of those items that are dicts. *)
Lemma metrics_loop_extends (campaign_name ad_name : value) :
  forall metrics all_records,
  exists records logs,
    metrics_loop campaign_name ad_name metrics all_records
    = (Ok (all_records ++ records), logs)
    /\ Forall (fun r => exists m, r = record_for campaign_name ad_name m)
         records.
Proof.
  induction metrics as [|metric rest IH]; intros all_records.
  - exists [], []. cbn. now rewrite app_nil_r.
  - destruct metric;
      try (destruct (IH all_records) as (records & logs & E & F);
           exists records; eexists; cbn; rewrite E; split; [reflexivity|exact F]).
    destruct (IH (all_records ++ [record_for campaign_name ad_name d]))
      as (records & logs & E & F).
    exists (record_for campaign_name ad_name d :: records). eexists.
    cbn. fold (record_for campaign_name ad_name d). rewrite E.
    rewrite <- app_assoc. split; [reflexivity|].
    constructor; [now exists d | exact F].
Qed.

(** Whatever the ads loop returns extends the accumulator by records
    built from a dict ad and a dict metric. *)
Lemma ads_loop_extends (campaign_name : value) :
  forall ads all_records out logs,
    ads_loop campaign_name ads all_records = (Ok out, logs) ->
    exists records,
      out = all_records ++ records
      /\ Forall (fun r => exists a m,
                   r = record_for campaign_name (dict_get a "name" (VStr "")) m)
           records.
Proof.
  induction ads as [|ad rest IH]; intros all_records out logs H.
  - cbn in H. injection H as <- _. exists []. now rewrite app_nil_r.
  - destruct ad;
      try (cbn in H;
           destruct (ads_loop campaign_name rest all_records)
             as [[out'|e] logs'] eqn:E; [|discriminate];
           injection H as <- _; now apply (IH _ _ _ E)).
    cbn in H.
    destruct (py_iter (dict_get d "metrics" (VList []))) as [items|e];
      [|discriminate].
    destruct (metrics_loop_extends campaign_name
                (dict_get d "name" (VStr "")) items all_records)
      as (records & logs1 & E1 & F1).
    cbn in H. rewrite E1 in H. cbn in H.
    destruct (ads_loop campaign_name rest (all_records ++ records))
      as [[out'|e] logs'] eqn:E; [|discriminate].
    injection H as <- _.
    destruct (IH _ _ _ E) as (records' & -> & F').
    exists (records ++ records'). rewrite app_assoc. split; [reflexivity|].
    apply Forall_app. split; [|exact F'].
    eapply Forall_impl; [|exact F1].
    intros r [m ->]. now exists d, m.
Qed.

Lemma campaigns_loop_extends :
  forall campaigns all_records out logs,
    campaigns_loop campaigns all_records = (Ok out, logs) ->
    exists records,
      out = all_records ++ records
      /\ Forall (fun r => exists c a m,
                   r = record_for (dict_get c "name" (VStr ""))
                         (dict_get a "name" (VStr "")) m)
           records.
Proof.
  induction campaigns as [|campaign rest IH]; intros all_records out logs H.
  - cbn in H. injection H as <- _. exists []. now rewrite app_nil_r.
  - destruct campaign;
      try (cbn in H;
           destruct (campaigns_loop rest all_records)
             as [[out'|e] logs'] eqn:E; [|discriminate];
           injection H as <- _; now apply (IH _ _ _ E)).
    cbn in H.
    destruct (py_iter (dict_get d "ads" (VList []))) as [items|e];
      [|discriminate].
    cbn in H.
    destruct (ads_loop (dict_get d "name" (VStr "")) items all_records)
      as [[mid|e] logs1] eqn:E1; [|discriminate].
    destruct (ads_loop_extends _ _ _ _ _ E1) as (records & -> & F1).
    cbn in H.
    destruct (campaigns_loop rest (all_records ++ records))
      as [[out'|e] logs'] eqn:E; cbn in H; [|discriminate].
    injection H as <- _.
    destruct (IH _ _ _ E) as (records' & -> & F').
    exists (records ++ records'). rewrite app_assoc. split; [reflexivity|].
    apply Forall_app. split; [|exact F'].
    eapply Forall_impl; [|exact F1].
    intros r (a & m & ->). now exists d, a, m.
Qed.

Lemma parse_records_shape (response : value) (records : list value) :
  records_of response = Ok records ->
  Forall (fun r => exists c a m,
            r = record_for (dict_get c "name" (VStr ""))
                  (dict_get a "name" (VStr "")) m)
    records.
Proof.
  unfold records_of, parse_records. intros H.
  destruct response; try (cbn in H; injection H as <-; constructor).
  cbn in H.
  destruct (dict_get d "data" (VDict []));
    try (cbn in H; injection H as <-; constructor).
  cbn in H.
  destruct (py_iter (dict_get d0 "campaigns" (VList []))) as [items|e];
    [|discriminate].
  cbn in H.
  destruct (campaigns_loop items []) as [[out|e] logs] eqn:E; [|discriminate].
  cbn in H. injection H as <-.
  destruct (campaigns_loop_extends _ _ _ _ E) as (records & -> & F).
  exact F.
Qed.

(** *** The flattener only logs *)

Lemma only_logs_ret {A} (a : A) : only_logs (ret a).
Proof. constructor. Qed.

Lemma only_logs_lift {A} (r : result A) : only_logs (lift r).
Proof. constructor. Qed.

Lemma only_logs_log (lvl : level) (template : string) (args : list log_arg) :
  only_logs (log lvl template args).
Proof. repeat constructor. Qed.

Lemma only_logs_bind {A B} (m : W A) (k : A -> W B) :
  only_logs m -> (forall a, only_logs (k a)) -> only_logs (bind m k).
Proof.
  unfold only_logs, bind. intros Hm Hk.
  destruct m as [[a|e] l]; [|exact Hm].
  specialize (Hk a). destruct (k a) as [r l']. cbn [snd] in *.
  apply Forall_app. now split.
Qed.

Lemma only_logs_try_except {A} (m : W A) (h : exn -> W A) :
  only_logs m -> (forall e, only_logs (h e)) -> only_logs (try_except m h).
Proof.
  unfold only_logs, try_except. intros Hm Hh.
  destruct m as [[a|e] l]; [exact Hm|].
  specialize (Hh e). destruct (h e) as [r l']. cbn [snd] in *.
  apply Forall_app. now split.
Qed.

Create HintDb flatten_logs.
#[local] Hint Resolve only_logs_ret only_logs_lift only_logs_log : flatten_logs.

Ltac logs_only :=
  repeat first
    [ apply only_logs_bind; [|intros ?]
    | apply only_logs_try_except; [|intros ?]
    | progress auto with flatten_logs ].

Lemma only_logs_metrics_loop (campaign_name ad_name : value) :
  forall metrics all_records,
    only_logs (metrics_loop campaign_name ad_name metrics all_records).
Proof.
  induction metrics as [|metric rest IH]; intros all_records;
    cbn [metrics_loop]; [logs_only|].
  apply only_logs_bind; [unfold make_record; logs_only | intros a; apply IH].
Qed.

Lemma only_logs_ads_loop (campaign_name : value) :
  forall ads all_records, only_logs (ads_loop campaign_name ads all_records).
Proof.
  induction ads as [|ad rest IH]; intros all_records;
    cbn [ads_loop]; [logs_only|].
  apply only_logs_bind; [logs_only|].
  intros [[ad_name metrics]|]; [|apply IH].
  apply only_logs_bind; [logs_only|]. intros items.
  apply only_logs_bind; [apply only_logs_metrics_loop | intros a; apply IH].
Qed.

Lemma only_logs_campaigns_loop :
  forall campaigns all_records,
    only_logs (campaigns_loop campaigns all_records).
Proof.
  induction campaigns as [|campaign rest IH]; intros all_records;
    cbn [campaigns_loop]; [logs_only|].
  apply only_logs_bind; [logs_only|].
  intros [[campaign_name ads]|]; [|apply IH].
  apply only_logs_bind; [logs_only|]. intros items.
  apply only_logs_bind; [apply only_logs_ads_loop | intros a; apply IH].
Qed.

Lemma only_logs_parse_records (response : value) :
  only_logs (parse_records response).
Proof.
  unfold parse_records. apply only_logs_bind; [logs_only|].
  intros [campaigns|]; [|logs_only].
  apply only_logs_bind; [logs_only|]. intros items.
  apply only_logs_campaigns_loop.
Qed.

(** *** When the flattener raises *)

Lemma ads_loop_ok (campaign_name : value) :
  forall ads all_records,
    is_ok (fst (ads_loop campaign_name ads all_records)) = forallb ad_ok ads.
Proof.
  induction ads as [|ad rest IH]; intros all_records; [reflexivity|].
  destruct ad;
    try (cbn; specialize (IH all_records);
         destruct (ads_loop campaign_name rest all_records) as [r lg];
         exact IH).
  cbn.
  destruct (py_iter (dict_get d "metrics" (VList []))) as [items|e];
    [|reflexivity].
  destruct (metrics_loop_extends campaign_name
              (dict_get d "name" (VStr "")) items all_records)
    as (records & logs1 & E1 & _).
  cbn. rewrite E1. cbn.
  specialize (IH (all_records ++ records)).
  destruct (ads_loop campaign_name rest (all_records ++ records)) as [r lg].
  exact IH.
Qed.

Lemma campaigns_loop_ok :
  forall campaigns all_records,
    is_ok (fst (campaigns_loop campaigns all_records))
    = forallb campaign_ok campaigns.
Proof.
  induction campaigns as [|campaign rest IH]; intros all_records;
    [reflexivity|].
  destruct campaign;
    try (cbn; specialize (IH all_records);
         destruct (campaigns_loop rest all_records) as [r lg];
         exact IH).
  cbn.
  destruct (py_iter (dict_get d "ads" (VList []))) as [items|e];
    [|reflexivity].
  cbn.
  pose proof (ads_loop_ok (dict_get d "name" (VStr "")) items all_records)
    as Hads.
  destruct (ads_loop (dict_get d "name" (VStr "")) items all_records)
    as [[mid|e] logs1]; cbn in Hads |- *; rewrite <- Hads; [|reflexivity].
  specialize (IH mid).
  destruct (campaigns_loop rest mid) as [r lg].
  exact IH.
Qed.

(** X6: [parse_records] returns exactly when every sub-collection it comes
    to iterate over is iterable; otherwise it raises. *)
Lemma parse_records_ok (response : value) :
  is_ok (records_of response) = page_ok response.
Proof.
  unfold records_of, parse_records.
  destruct response; try reflexivity.
  cbn. destruct (dict_get d "data" (VDict [])); try reflexivity.
  cbn.
  destruct (py_iter (dict_get d0 "campaigns" (VList []))) as [items|e];
    [|reflexivity].
  cbn.
  pose proof (campaigns_loop_ok items []) as H.
  destruct (campaigns_loop items []) as [r lg]. exact H.
Qed.

(** *** The flattener against the nesting of the page *)

Lemma metrics_loop_flat (campaign_name ad_name : value) :
  forall metrics all_records,
    fst (metrics_loop campaign_name ad_name metrics all_records)
    = Ok (all_records ++ metric_records campaign_name ad_name metrics).
Proof.
  induction metrics as [|metric rest IH]; intros all_records.
  - cbn. now rewrite app_nil_r.
  - destruct metric;
      try (cbn; specialize (IH all_records);
           destruct (metrics_loop campaign_name ad_name rest all_records)
             as [r lg];
           exact IH).
    cbn. fold (record_for campaign_name ad_name d).
    specialize (IH (all_records ++ [record_for campaign_name ad_name d])).
    destruct (metrics_loop campaign_name ad_name rest
                (all_records ++ [record_for campaign_name ad_name d]))
      as [r lg].
    cbn [fst] in *. rewrite IH. now rewrite <- app_assoc.
Qed.

Lemma ads_loop_flat (campaign_name : value) :
  forall ads all_records,
    forallb ad_ok ads = true ->
    fst (ads_loop campaign_name ads all_records)
    = Ok (all_records ++ flat_map (ad_records campaign_name) ads).
Proof.
  induction ads as [|ad rest IH]; intros all_records Hok.
  - cbn. now rewrite app_nil_r.
  - cbn [forallb] in Hok. apply andb_prop in Hok. destruct Hok as [Had Hrest].
    destruct ad;
      try (cbn; specialize (IH all_records Hrest);
           destruct (ads_loop campaign_name rest all_records) as [r lg];
           exact IH).
    cbn in Had. cbn.
    destruct (py_iter (dict_get d "metrics" (VList []))) as [items|e];
      [|discriminate Had].
    pose proof (metrics_loop_flat campaign_name
                  (dict_get d "name" (VStr "")) items all_records) as Hm.
    cbn.
    destruct (metrics_loop campaign_name (dict_get d "name" (VStr "")) items
                all_records) as [[mid|e] lg1]; cbn [fst] in Hm;
      [|discriminate Hm].
    injection Hm as ->. cbn.
    specialize (IH (all_records
                    ++ metric_records campaign_name
                         (dict_get d "name" (VStr "")) items) Hrest).
    destruct (ads_loop campaign_name rest
                (all_records
                 ++ metric_records campaign_name
                      (dict_get d "name" (VStr "")) items)) as [r lg2].
    cbn [fst] in *. rewrite IH. now rewrite <- app_assoc.
Qed.

Lemma campaigns_loop_flat :
  forall campaigns all_records,
    forallb campaign_ok campaigns = true ->
    fst (campaigns_loop campaigns all_records)
    = Ok (all_records ++ flat_map campaign_records campaigns).
Proof.
  induction campaigns as [|campaign rest IH]; intros all_records Hok.
  - cbn. now rewrite app_nil_r.
  - cbn [forallb] in Hok. apply andb_prop in Hok. destruct Hok as [Hc Hrest].
    destruct campaign;
      try (cbn; specialize (IH all_records Hrest);
           destruct (campaigns_loop rest all_records) as [r lg];
           exact IH).
    cbn in Hc. cbn.
    destruct (py_iter (dict_get d "ads" (VList []))) as [items|e];
      [|discriminate Hc].
    pose proof (ads_loop_flat (dict_get d "name" (VStr "")) items
                  all_records Hc) as Ha.
    cbn.
    destruct (ads_loop (dict_get d "name" (VStr "")) items all_records)
      as [[mid|e] lg1]; cbn [fst] in Ha; [|discriminate Ha].
    injection Ha as ->. cbn.
    specialize (IH (all_records
                    ++ flat_map (ad_records (dict_get d "name" (VStr "")))
                         items) Hrest).
    destruct (campaigns_loop rest
                (all_records
                 ++ flat_map (ad_records (dict_get d "name" (VStr "")))
                      items)) as [r lg2].
    cbn [fst] in *. rewrite IH. now rewrite <- app_assoc.
Qed.

(** X7: whenever [parse_records] returns, that is whenever every
    sub-collection it iterates over is iterable, it returns the records
    of the page in nesting order: campaigns in order, within a campaign
    its ads in order, within an ad its metrics in order, one record for
    each metric that is an object inside an ad and a campaign that are
    objects. *)
Theorem parse_records_flat (response : value) :
  page_ok response = true ->
  records_of response = Ok (page_records response).
Proof.
  unfold records_of, parse_records, page_ok, page_records.
  destruct response; try reflexivity.
  cbn. destruct (dict_get d "data" (VDict [])); try reflexivity.
  cbn.
  destruct (py_iter (dict_get d0 "campaigns" (VList []))) as [items|e];
    [|discriminate].
  intros Hok. cbn.
  pose proof (campaigns_loop_flat items [] Hok) as H.
  destruct (campaigns_loop items []) as [r lg]. exact H.
Qed.

Lemma parse_records_flat_witness :
  records_of Samples.mixed_ads_page
  = Ok (page_records Samples.mixed_ads_page)
  /\ page_records Samples.mixed_ads_page = [Samples.example_record].
Proof.
  split; [|reflexivity].
  apply (parse_records_flat Samples.mixed_ads_page). reflexivity.
Defined.

(** *** When the flattener has nothing to report *)

Lemma is_quiet_app {A} (r : result A) (l1 l2 : list event) :
  is_quiet (r, l1 ++ l2) = is_quiet (Ok tt, l1) && is_quiet (r, l2).
Proof. destruct l1; [reflexivity|]. now destruct r. Qed.

Lemma metrics_loop_quiet (campaign_name ad_name : value) :
  forall metrics all_records,
    is_quiet (metrics_loop campaign_name ad_name metrics all_records)
    = forallb is_object metrics.
Proof.
  induction metrics as [|metric rest IH]; intros all_records; [reflexivity|].
  destruct metric;
    try (cbn;
         destruct (metrics_loop campaign_name ad_name rest all_records)
           as [[r|e] lg]; reflexivity).
  cbn.
  specialize (IH (all_records
                  ++ [VDict [("campaign", campaign_name);
                             ("ad_name", ad_name);
                             ("date", dict_get d "date" (VStr ""));
                             ("cost", dict_get d "cost" (VInt 0));
                             ("impressions", dict_get d "impressions" (VInt 0));
                             ("clicks", dict_get d "clicks" (VInt 0));
                             ("conversions", dict_get d "conversions" (VInt 0));
                             ("revenue", dict_get d "revenue" (VInt 0))]])).
  destruct (metrics_loop campaign_name ad_name rest _) as [r lg].
  exact IH.
Qed.

Lemma ads_loop_quiet (campaign_name : value) :
  forall ads all_records,
    is_quiet (ads_loop campaign_name ads all_records) = forallb ad_clean ads.
Proof.
  induction ads as [|ad rest IH]; intros all_records; [reflexivity|].
  destruct ad;
    try (cbn;
         destruct (ads_loop campaign_name rest all_records) as [[r|e] lg];
         reflexivity).
  cbn. unfold items_all.
  destruct (py_iter (dict_get d "metrics" (VList []))) as [items|e];
    [|reflexivity].
  pose proof (metrics_loop_quiet campaign_name
                (dict_get d "name" (VStr "")) items all_records) as Hm.
  cbn.
  destruct (metrics_loop campaign_name (dict_get d "name" (VStr "")) items
              all_records) as [[mid|e] lg1].
  - cbn. specialize (IH mid).
    destruct (ads_loop campaign_name rest mid) as [r lg2].
    rewrite is_quiet_app, IH. f_equal.
    rewrite <- Hm. now destruct lg1.
  - cbn. rewrite <- Hm. reflexivity.
Qed.

Lemma campaigns_loop_quiet :
  forall campaigns all_records,
    is_quiet (campaigns_loop campaigns all_records)
    = forallb campaign_clean campaigns.
Proof.
  induction campaigns as [|campaign rest IH]; intros all_records;
    [reflexivity|].
  destruct campaign;
    try (cbn;
         destruct (campaigns_loop rest all_records) as [[r|e] lg];
         reflexivity).
  cbn. unfold items_all.
  destruct (py_iter (dict_get d "ads" (VList []))) as [items|e];
    [|reflexivity].
  pose proof (ads_loop_quiet (dict_get d "name" (VStr "")) items all_records)
    as Ha.
  cbn.
  destruct (ads_loop (dict_get d "name" (VStr "")) items all_records)
    as [[mid|e] lg1].
  - cbn. specialize (IH mid).
    destruct (campaigns_loop rest mid) as [r lg2].
    rewrite is_quiet_app, IH. f_equal.
    rewrite <- Ha. now destruct lg1.
  - cbn. rewrite <- Ha. reflexivity.
Qed.

(** X8: [parse_records] returns without having logged anything exactly when
    the page has the expected form throughout: objects where objects are
    read, iterable collections of objects where the loops run. Any item
    that is no object costs an error log, any collection that is not
    iterable an exception. *)
Theorem parse_records_quiet (response : value) :
  is_quiet (parse_records response) = page_clean response.
Proof.
  unfold parse_records, page_clean.
  destruct response; try reflexivity.
  cbn. destruct (dict_get d "data" (VDict [])); try reflexivity.
  cbn. unfold items_all.
  destruct (py_iter (dict_get d0 "campaigns" (VList []))) as [items|e];
    [|reflexivity].
  cbn.
  pose proof (campaigns_loop_quiet items []) as H.
  destruct (campaigns_loop items []) as [r lg]. exact H.
Qed.

(** What the flattener does contain: a response or a [data] that is no
    object gives the empty list, with one error logged. *)
Lemma parse_records_no_object (response : value) :
  (forall d, response <> VDict d) ->
  parse_records response
  = (Ok [],
     [EvLog Error "Error accessing campaigns from response: %s"
        [AExn (AttributeError (type_name response) "get")]]).
Proof.
  intros H. destruct response; try reflexivity. now destruct (H d).
Qed.

(** The well-formed ad beside an ad that is no object still yields its
    record. *)
Example parse_records_mixed_ads :
  records_of Samples.mixed_ads_page = Ok [Samples.example_record].
Proof. reflexivity. Qed.

(** C5, at the inputs where the code departs from it: a campaign whose
    [ads] is null makes [parse_records] raise [TypeError], so the record
    of the well-formed campaign next to it is lost; a null [campaigns]
    raises as well instead of giving the empty list. *)
Theorem parse_records_raises_on_null_collection :
  parse_records Samples.null_ads_page
  = (Raise (TypeError "'NoneType' object is not iterable"), [])
  /\ parse_records Samples.null_campaigns_page
     = (Raise (TypeError "'NoneType' object is not iterable"), []).
Proof. split; reflexivity. Qed.

(** What [parse_records] returns is the records of the page. *)
Lemma records_of_flat (response : value) (records : list value) :
  records_of response = Ok records -> records = page_records response.
Proof.
  unfold records_of, parse_records, page_records.
  destruct response; try (now intros [= <-]).
  cbn. destruct (dict_get d "data" (VDict [])); try (now intros [= <-]).
  cbn.
  destruct (py_iter (dict_get d0 "campaigns" (VList []))) as [items|e];
    [|discriminate].
  cbn. intros H.
  pose proof (campaigns_loop_ok items []) as Hok.
  pose proof (campaigns_loop_flat items []) as Hflat.
  destruct (campaigns_loop items []) as [r lg]. cbn [fst] in *.
  subst r. cbn [is_ok] in Hok. symmetry in Hok.
  specialize (Hflat Hok). now injection Hflat as ->.
Qed.

(** The records of a page are the records of its metrics. *)
Lemma page_records_in (response r : value) :
  In r (page_records response)
  <-> exists c a m,
        metric_of_page response c a m
        /\ r = record_for (dict_get c "name" (VStr ""))
                 (dict_get a "name" (VStr "")) m.
Proof.
  split.
  - unfold page_records.
    destruct response as [| | | | | |resp]; try (now intros []).
    destruct (dict_get resp "data" (VDict [])) as [| | | | | |data] eqn:Edata;
      try (now intros []).
    destruct (py_iter (dict_get data "campaigns" (VList [])))
      as [campaigns|e] eqn:Ec; [|now intros []].
    intros H. apply in_flat_map in H. destruct H as (campaign & Hc & H).
    unfold campaign_records in H.
    destruct campaign as [| | | | | |c]; try (now destruct H).
    destruct (py_iter (dict_get c "ads" (VList []))) as [ads|e] eqn:Ea;
      [|now destruct H].
    apply in_flat_map in H. destruct H as (ad & Ha & H).
    unfold ad_records in H.
    destruct ad as [| | | | | |a]; try (now destruct H).
    destruct (py_iter (dict_get a "metrics" (VList []))) as [metrics|e] eqn:Em;
      [|now destruct H].
    unfold metric_records in H.
    apply in_flat_map in H. destruct H as (metric & Hm & H).
    destruct metric as [| | | | | |m]; try (now destruct H).
    destruct H as [<-|[]].
    exists c, a, m. split; [|reflexivity].
    exists resp, data, campaigns, ads, metrics. repeat split; assumption.
  - intros (c & a & m & Hpage & ->).
    destruct Hpage
      as (resp & data & campaigns & ads & metrics
          & -> & Edata & Ec & Hc & Ea & Ha & Em & Hm).
    unfold page_records. rewrite Edata, Ec.
    apply in_flat_map. exists (VDict c). split; [exact Hc|].
    unfold campaign_records. rewrite Ea.
    apply in_flat_map. exists (VDict a). split; [exact Ha|].
    unfold ad_records. rewrite Em.
    unfold metric_records.
    apply in_flat_map. exists (VDict m). split; [exact Hm|].
    now left.
Qed.



End FlattenFacts.

(** ** The fetcher *)

Module FetchFacts.
Import Eff Fetch.

#[local] Arguments dict_get : simpl never.

Section Run.

Variable server : nat -> response.
Variables access_token start_date end_date identifier : string.
Variables max_retries delay request_timeout : Z.

Local Abbreviation retry := (retry_loop server delay).
Local Abbreviation wait := (wait_time delay).
Local Abbreviation request_for :=
  (make_request access_token start_date end_date identifier request_timeout).
Local Abbreviation page_round :=
  (page server access_token start_date end_date identifier max_retries delay
     request_timeout).
Local Abbreviation loop :=
  (fetch_loop server access_token start_date end_date identifier max_retries
     delay request_timeout).
Local Abbreviation fetch :=
  (fetch_data server access_token start_date end_date identifier max_retries
     delay request_timeout).

(** *** Arithmetic of the backoff *)

Lemma wait_nonneg (attempt : nat) : 0 <= delay -> 0 <= wait attempt.
Proof.
  intros H. unfold wait_time. apply Z.mul_nonneg_nonneg; [exact H|].
  apply Z.pow_nonneg. lia.
Qed.

Lemma wait_succ (attempt : nat) : wait (S attempt) = 2 * wait attempt.
Proof.
  unfold wait_time. rewrite Nat2Z.inj_succ, Z.pow_succ_r by lia. lia.
Qed.

Lemma wait_monotone (a b : nat) :
  0 <= delay -> (a <= b)%nat -> wait a <= wait b.
Proof.
  intros Hd Hab. induction Hab as [|b Hab IH]; [lia|].
  rewrite wait_succ. pose proof (wait_nonneg b Hd). lia.
Qed.

Lemma wait_increasing (a b : nat) :
  0 < delay -> (a < b)%nat -> wait a < wait b.
Proof.
  intros Hd Hab. unfold wait_time.
  apply Z.mul_lt_mono_pos_l; [exact Hd|].
  apply Z.pow_lt_mono_r; lia.
Qed.

(** *** One attempt *)

Lemma sleep_refused_none (seconds : Z) :
  0 <= seconds <= sleep_max -> sleep_refused seconds = None.
Proof.
  intros H. unfold sleep_refused.
  assert (sleep_max = 9223372036) by reflexivity.
  destruct (seconds <? - sleep_max) eqn:E1; [apply Z.ltb_lt in E1; lia|].
  destruct (sleep_max <? seconds) eqn:E2; [apply Z.ltb_lt in E2; lia|].
  destruct (seconds <? 0) eqn:E3; [apply Z.ltb_lt in E3; lia|].
  reflexivity.
Qed.

(** What [time.sleep] refuses is a length outside 0 .. [sleep_max]. *)
Lemma sleep_refused_some (seconds : Z) (e : exn) :
  sleep_refused seconds = Some e ->
  (seconds < 0 \/ sleep_max < seconds)
  /\ (e = ValueError "sleep length must be non-negative"
      \/ e = OverflowError "timestamp too large to convert to C _PyTime_t").
Proof.
  unfold sleep_refused.
  assert (sleep_max = 9223372036) by reflexivity.
  destruct (seconds <? - sleep_max) eqn:E1;
    [apply Z.ltb_lt in E1; intros [= <-]; split; [lia | now right]|].
  destruct (sleep_max <? seconds) eqn:E2;
    [apply Z.ltb_lt in E2; intros [= <-]; split; [lia | now right]|].
  cbn [orb].
  destruct (seconds <? 0) eqn:E3; [|discriminate].
  apply Z.ltb_lt in E3. intros [= <-]. split; [lia | now left].
Qed.

Lemma sleep_accepted (seconds : Z) (w : world) :
  0 <= seconds <= sleep_max ->
  sleep seconds w = (Ok tt, mkWorld (calls w) (trace w ++ [EvSleep seconds])).
Proof.
  intros H. unfold sleep. now rewrite (sleep_refused_none _ H).
Qed.

(** A failed attempt leaves its three events and hands over to the next
    attempt. *)
Lemma retry_failure_step (req : request) (attempt : nat) (rest : list nat)
    (w : world) :
  0 <= wait attempt <= sleep_max ->
  is_failure (server (calls w)) = true ->
  retry req (attempt :: rest) w
  = retry req rest
      (mkWorld (S (calls w))
         (trace w ++ failure_events delay req attempt (server (calls w)))).
Proof.
  intros Hd Hf.
  pose proof (sleep_accepted (wait attempt)) as Hs.
  specialize (fun w => Hs w Hd).
  cbn [retry_loop].
  unfold bind at 1. unfold try_except, bind at 1, http_get.
  destruct (server (calls w)) as [e|body]; cbn [failure_events].
  - unfold bind, log, emit, ret. rewrite Hs. norm_trace. reflexivity.
  - destruct body; try discriminate Hf. cbn in Hf.
    unfold ret, lift, bind, py_get, log, emit.
    destruct (eq_str (dict_get d "status" VNone) "SUCCESS"); [discriminate|].
    rewrite Hs. norm_trace. reflexivity.
Qed.

(** *** The trace only grows *)

Lemma extends_ret {A} (a : A) : extends (ret a).
Proof. intros w r w' [= _ <-]. exists []. now rewrite app_nil_r. Qed.

Lemma extends_raise {A} (e : exn) : extends (@raise A e).
Proof. intros w r w' [= _ <-]. exists []. now rewrite app_nil_r. Qed.

Lemma extends_lift {A} (x : result A) : extends (lift x).
Proof. intros w r w' [= _ <-]. exists []. now rewrite app_nil_r. Qed.

Lemma extends_emit (ev : event) : extends (emit ev).
Proof. intros w r w' [= _ <-]. now exists [ev]. Qed.

Lemma extends_log (lvl : level) (template : string) (args : list log_arg) :
  extends (log lvl template args).
Proof. apply extends_emit. Qed.

Lemma extends_logging {A} (m : Flatten.W A) : extends (logging m).
Proof. intros w r w' [= _ <-]. now exists (snd m). Qed.

Lemma extends_sleep (seconds : Z) : extends (sleep seconds).
Proof.
  unfold sleep. destruct (sleep_refused seconds);
    [apply extends_raise | apply extends_emit].
Qed.

Lemma extends_http_get (req : request) : extends (http_get server req).
Proof.
  intros w r w'. unfold http_get.
  destruct (server (calls w)); intros [= _ <-]; now exists [EvRequest req].
Qed.

Lemma extends_bind {A B} (m : M A) (k : A -> M B) :
  extends m -> (forall a, extends (k a)) -> extends (bind m k).
Proof.
  intros Hm Hk w r w'. unfold bind.
  destruct (m w) as [[a|e] w1] eqn:E; intros H.
  - destruct (Hm _ _ _ E) as [t1 E1]. destruct (Hk a _ _ _ H) as [t2 E2].
    exists (t1 ++ t2). now rewrite E2, E1, app_assoc.
  - injection H as _ <-. exact (Hm _ _ _ E).
Qed.

Lemma extends_try_except {A} (m : M A) (h : exn -> M A) :
  extends m -> (forall e, extends (h e)) -> extends (try_except m h).
Proof.
  intros Hm Hh w r w'. unfold try_except.
  destruct (m w) as [[a|e] w1] eqn:E; intros H.
  - injection H as _ <-. exact (Hm _ _ _ E).
  - destruct (Hm _ _ _ E) as [t1 E1]. destruct (Hh e _ _ _ H) as [t2 E2].
    exists (t1 ++ t2). now rewrite E2, E1, app_assoc.
Qed.

Create HintDb trace_grows.
#[local] Hint Resolve extends_ret extends_raise extends_lift extends_emit
  extends_log extends_logging extends_sleep extends_http_get : trace_grows.

Ltac grows :=
  repeat first
    [ apply extends_bind; [|intros ?]
    | apply extends_try_except; [|intros ?]
    | progress auto with trace_grows ].

Lemma extends_retry (req : request) (attempts : list nat) :
  extends (retry req attempts).
Proof.
  induction attempts as [|attempt rest IH]; cbn [retry_loop]; [grows|].
  apply extends_bind; [grows|].
  intros [response_json|]; [|exact IH].
  apply extends_bind; [grows|]. intros status.
  destruct (eq_str status "SUCCESS"); grows.
Qed.

Lemma extends_after_retry (all_records : list value) (cursor : value)
    (exit : for_exit) :
  extends (after_retry all_records cursor exit).
Proof.
  destruct exit as [response_json|]; cbn [after_retry]; [|grows].
  apply extends_bind; [grows|].
  intros [records|]; grows.
Qed.

Lemma extends_page (all_records : list value) (cursor : value) :
  extends (page_round all_records cursor).
Proof.
  unfold page. apply extends_bind;
    [apply extends_retry | intros exit; apply extends_after_retry].
Qed.

Lemma extends_loop :
  forall fuel all_records has_next_page cursor w r w',
    loop fuel all_records has_next_page cursor w = Some (r, w') ->
    exists tail, trace w' = trace w ++ tail.
Proof.
  induction fuel as [|fuel IH]; intros all_records has_next_page cursor w r w';
    cbn [fetch_loop]; destruct (truthy has_next_page);
    try discriminate;
    try (intros [= _ <-]; exists []; now rewrite app_nil_r).
  destruct (page_round all_records cursor w) as [[[acc hnp c|x]|e] w1] eqn:E;
    destruct (extends_page _ _ _ _ _ E) as [t1 E1].
  - intros H. destruct (IH _ _ _ _ _ _ H) as [t2 E2].
    exists (t1 ++ t2). now rewrite E2, E1, app_assoc.
  - intros [= _ <-]. now exists t1.
  - intros [= _ <-]. now exists t1.
Qed.

(** An attempt answered by an object with status "SUCCESS" leaves the
    loop by [break]. *)
Lemma retry_success_step (req : request) (attempt : nat) (rest : list nat)
    (w : world) (d : list (string * value)) :
  server (calls w) = Body (VDict d) ->
  eq_str (dict_get d "status" VNone) "SUCCESS" = true ->
  retry req (attempt :: rest) w
  = (Ok (Break (VDict d)),
     mkWorld (S (calls w))
       (trace w ++ [EvRequest req; EvLog Info "Data ready for retrieval." []])).
Proof.
  intros Hs Hok.
  cbn [retry_loop].
  unfold bind at 1. unfold try_except, bind at 1, http_get.
  rewrite Hs. unfold ret, lift, bind, py_get, log, emit. rewrite Hok.
  norm_trace. reflexivity.
Qed.

(** *** Runs of failed attempts *)

Lemma backoff_events_succ (req : request) (i k first : nat) :
  backoff_events server delay req i (S k) first
  = failure_events delay req i (server first)
    ++ backoff_events server delay req (S i) k (S first).
Proof.
  unfold backoff_events. cbn [seq flat_map].
  rewrite !Nat.add_0_r. f_equal.
  rewrite <- seq_shift, !flat_map_concat_map, map_map. f_equal.
  apply map_ext. intros j. now rewrite !Nat.add_succ_r.
Qed.

Lemma retry_failures (req : request) :
  forall k i rest w,
    (forall j, (j < k)%nat -> 0 <= wait (i + j) <= sleep_max) ->
    (forall j, (j < k)%nat -> is_failure (server (calls w + j)) = true) ->
    retry req (seq i k ++ rest) w
    = retry req rest
        (mkWorld (calls w + k)
           (trace w ++ backoff_events server delay req i k (calls w))).
Proof.
  induction k as [|k IH]; intros i rest w Hd Hf.
  - cbn. rewrite Nat.add_0_r, app_nil_r. now destruct w.
  - cbn [seq app].
    rewrite retry_failure_step.
    2:{ specialize (Hd 0%nat). rewrite Nat.add_0_r in Hd. apply Hd. lia. }
    2:{ specialize (Hf 0%nat). rewrite Nat.add_0_r in Hf. apply Hf. lia. }
    rewrite IH.
    2:{ intros j Hj. specialize (Hd (S j)).
        rewrite Nat.add_succ_r in Hd. apply Hd. lia. }
    2:{ intros j Hj. cbn [calls]. specialize (Hf (S j)).
        rewrite Nat.add_succ_r in Hf. apply Hf. lia. }
    cbn [calls trace]. rewrite backoff_events_succ, <- app_assoc.
    now rewrite Nat.add_succ_r.
Qed.

Lemma sleeps_app (tr1 tr2 : list event) :
  sleeps (tr1 ++ tr2) = sleeps tr1 ++ sleeps tr2.
Proof. apply flat_map_app. Qed.

Lemma requests_app (tr1 tr2 : list event) :
  requests (tr1 ++ tr2) = requests tr1 ++ requests tr2.
Proof. apply flat_map_app. Qed.

Lemma sleeps_backoff (req : request) :
  forall k i first,
    sleeps (backoff_events server delay req i k first) = map wait (seq i k).
Proof.
  induction k as [|k IH]; intros i first; [reflexivity|].
  rewrite backoff_events_succ, sleeps_app, IH.
  now destruct (server first).
Qed.

Lemma requests_backoff (req : request) :
  forall k i first,
    requests (backoff_events server delay req i k first) = repeat req k.
Proof.
  induction k as [|k IH]; intros i first; [reflexivity|].
  rewrite backoff_events_succ, requests_app, IH.
  now destruct (server first).
Qed.

Lemma total_waits :
  forall k i,
    total (map wait (seq i k))
    = delay * (2 ^ Z.of_nat (i + k) - 2 ^ Z.of_nat i).
Proof.
  induction k as [|k IH]; intros i.
  - cbn. rewrite Nat.add_0_r. lia.
  - cbn [seq map total fold_right]. fold (total (map wait (seq (S i) k))).
    rewrite IH. unfold wait_time.
    replace (S i + k)%nat with (i + S k)%nat by lia.
    rewrite (Nat2Z.inj_succ i), Z.pow_succ_r by lia. lia.
Qed.

(** The last of [S k] failed attempts ends with its sleep. *)
Lemma backoff_events_last (req : request) :
  forall k i first,
    exists front,
      backoff_events server delay req i (S k) first
      = front ++ [EvSleep (wait (i + k))].
Proof.
  induction k as [|k IH]; intros i first.
  - rewrite backoff_events_succ. cbn. rewrite Nat.add_0_r, app_nil_r.
    destruct (server first); cbn [failure_events]; eexists [_; _]; reflexivity.
  - rewrite backoff_events_succ.
    destruct (IH (S i) (S first)) as [front ->].
    exists (failure_events delay req i (server first) ++ front).
    rewrite <- app_assoc. now rewrite Nat.add_succ_r.
Qed.

(** *** A page whose attempts all fail *)

Lemma page_exhausted (all_records : list value) (cursor : value) (w : world) :
  waits_accepted delay (Z.to_nat max_retries) ->
  (forall j, (j < Z.to_nat max_retries)%nat ->
             is_failure (server (calls w + j)) = true) ->
  page_round all_records cursor w
  = (Ok (Return PyNone),
     mkWorld (calls w + Z.to_nat max_retries)
       (trace w
        ++ backoff_events server delay (request_for cursor) 0
             (Z.to_nat max_retries) (calls w)
        ++ [EvLog Error "Max retries exceeded. Data still processing." []])).
Proof.
  intros Hd Hf. unfold page. unfold bind at 1.
  rewrite <- (app_nil_r (seq 0 (Z.to_nat max_retries))).
  rewrite (retry_failures _ _ 0%nat _ _ Hd Hf).
  cbn [retry_loop]. unfold ret. cbn [after_retry]. unfold ret, bind, log, emit.
  norm_trace. reflexivity.
Qed.

Lemma loop_exhausted (fuel : nat) (all_records : list value)
    (has_next_page cursor : value) (w : world) :
  waits_accepted delay (Z.to_nat max_retries) ->
  truthy has_next_page = true ->
  (forall j, (j < Z.to_nat max_retries)%nat ->
             is_failure (server (calls w + j)) = true) ->
  loop (S fuel) all_records has_next_page cursor w
  = Some (Ok PyNone,
          mkWorld (calls w + Z.to_nat max_retries)
            (trace w
             ++ backoff_events server delay (request_for cursor) 0
                  (Z.to_nat max_retries) (calls w)
             ++ [EvLog Error "Max retries exceeded. Data still processing." []])).
Proof.
  intros Hd Ht Hf. cbn [fetch_loop]. rewrite Ht.
  now rewrite (page_exhausted _ _ _ Hd Hf).
Qed.

Lemma logs_no_request (l : list event) :
  Forall (fun ev => Flatten.is_log ev = true) l ->
  requests l = [] /\ sleeps l = [].
Proof.
  induction 1 as [|ev l Hev _ [IHr IHs]]; [now split|].
  destruct ev; try discriminate Hev. now split.
Qed.

Lemma parse_records_no_request (response : value) :
  requests (snd (Flatten.parse_records response)) = []
  /\ sleeps (snd (Flatten.parse_records response)) = [].
Proof.
  apply logs_no_request. apply FlattenFacts.only_logs_parse_records.
Qed.

(** *** A page that arrives *)

Lemma after_retry_break (all_records : list value) (cursor : value)
    (d : list (string * value)) (w : world) :
  after_retry all_records cursor (Break (VDict d)) w
  = match Flatten.parse_records (VDict d) with
    | (Ok records, logs) =>
        (Ok (Continue (all_records ++ records)
               (dict_get d "hasNextPage" (VBool false))
               (dict_get d "nextCursor" VNone)),
         mkWorld (calls w)
           (trace w
            ++ EvLog Info "Parsing records at cursor point: {cursor}"
                 [AVal cursor]
            :: logs
            ++ [EvLog Info
                  "Fetched {len(records)} records. hasNextPage={has_next_page}, nextCursor={cursor}"
                  [AInt (Z.of_nat (List.length records));
                   AVal (dict_get d "hasNextPage" (VBool false));
                   AVal (dict_get d "nextCursor" VNone)]]))
    | (Raise e, logs) =>
        (Ok (Return PyNone),
         mkWorld (calls w)
           (trace w
            ++ EvLog Info "Parsing records at cursor point: {cursor}"
                 [AVal cursor]
            :: logs
            ++ [EvLog Error "Error during parsing records: {e}" [AExn e]]))
    end.
Proof.
  cbn [after_retry].
  unfold bind, try_except, log, emit, logging, lift, ret, py_get.
  destruct (Flatten.parse_records (VDict d)) as [[records|e] logs];
    norm_trace; reflexivity.
Qed.

Lemma page_success (all_records : list value) (cursor : value)
    (d : list (string * value)) (w : world) :
  1 <= max_retries ->
  server (calls w) = Body (VDict d) ->
  eq_str (dict_get d "status" VNone) "SUCCESS" = true ->
  page_round all_records cursor w
  = after_retry all_records cursor (Break (VDict d))
      (mkWorld (S (calls w))
         (trace w ++ [EvRequest (request_for cursor);
                      EvLog Info "Data ready for retrieval." []])).
Proof.
  intros Hn Hs Hok. unfold page.
  destruct (Z.to_nat max_retries) as [|m] eqn:Em; [lia|].
  cbn [seq]. unfold bind at 1.
  now rewrite (retry_success_step _ _ _ _ _ Hs Hok).
Qed.

(** *** The backoff between attempts *)

(** One attempt, read from the answer of the server: the request is in
    the trace before anything else happens. *)
Lemma retry_unfold (req : request) (attempt : nat) (rest : list nat)
    (w : world) :
  retry req (attempt :: rest) w
  = (match server (calls w) with
     | Failed e =>
         log Warning
           "[Attempt {attempt + 1}] Request error: {e}. Retrying in {wait_time}s..."
           [AInt (Z.of_nat attempt + 1); AExn e; AInt (wait attempt)] ;;
         sleep (wait attempt) ;;
         retry req rest
     | Body response_json =>
         status <- lift (py_get response_json "status" VNone) ;;
         if eq_str status "SUCCESS"
         then
           log Info "Data ready for retrieval." [] ;;
           ret (Break response_json)
         else
           log Warning
             "[Attempt {attempt + 1}] Data processing. Retrying in {wait_time}s..."
             [AInt (Z.of_nat attempt + 1); AInt (wait attempt)] ;;
           sleep (wait attempt) ;;
           retry req rest
     end)%M (mkWorld (S (calls w)) (trace w ++ [EvRequest req])).
Proof.
  cbn [retry_loop].
  unfold bind at 1. unfold try_except, bind at 1, http_get.
  destruct (server (calls w)) as [e|body]; [|reflexivity].
  unfold bind, log, emit, sleep, raise, ret.
  now destruct (sleep_refused (wait attempt)).
Qed.

Lemma retry_first_request (req : request) (attempt : nat) (rest : list nat)
    (w : world) (r : result for_exit) (w' : world) :
  retry req (attempt :: rest) w = (r, w') ->
  exists tail, trace w' = trace w ++ EvRequest req :: tail.
Proof.
  rewrite retry_unfold. intros H.
  pose proof (extends_retry req rest) as Hrest.
  match type of H with
  | ?m _ = _ => assert (Hext : extends m)
  end.
  { destruct (server (calls w)) as [e|body]; [grows|].
    apply extends_bind; [grows|]. intros status.
    destruct (eq_str status "SUCCESS"); grows. }
  destruct (Hext _ _ _ H) as [tail E]. exists tail. rewrite E.
  cbn [trace]. now rewrite <- app_assoc.
Qed.

Lemma page_after_failures (all_records : list value) (cursor : value)
    (w : world) (k : nat) :
  waits_accepted delay k ->
  (k <= Z.to_nat max_retries)%nat ->
  (forall j, (j < k)%nat -> is_failure (server (calls w + j)) = true) ->
  page_round all_records cursor w
  = bind (retry (request_for cursor) (seq k (Z.to_nat max_retries - k)))
      (after_retry all_records cursor)
      (mkWorld (calls w + k)
         (trace w
          ++ backoff_events server delay (request_for cursor) 0 k (calls w))).
Proof.
  intros Hd Hk Hf. unfold page.
  replace (Z.to_nat max_retries) with (k + (Z.to_nat max_retries - k))%nat
    at 1 by lia.
  rewrite seq_app. unfold bind.
  now rewrite (retry_failures _ _ 0%nat _ _ Hd Hf).
Qed.

(** After [k] failed attempts the round's trace holds their events, and
    the next request when an attempt is left. *)
Lemma round_after_failures (all_records : list value) (cursor : value)
    (w : world) (k : nat) :
  waits_accepted delay k ->
  (k <= Z.to_nat max_retries)%nat ->
  (forall j, (j < k)%nat -> is_failure (server (calls w + j)) = true) ->
  exists tail,
    trace (snd (page_round all_records cursor w))
    = trace w
      ++ backoff_events server delay (request_for cursor) 0 k (calls w)
      ++ tail
    /\ ((k < Z.to_nat max_retries)%nat ->
        exists tail', tail = EvRequest (request_for cursor) :: tail').
Proof.
  intros Hd Hk Hf.
  rewrite (page_after_failures all_records cursor w k Hd Hk Hf).
  set (req := request_for cursor).
  set (failed := backoff_events server delay req 0 k (calls w)).
  unfold bind.
  set (wk := mkWorld (calls w + k) (trace w ++ failed)).
  destruct (retry req (seq k (Z.to_nat max_retries - k)) wk)
    as [[exit|e] w1] eqn:E.
  - destruct (after_retry all_records cursor exit w1) as [r2 w2] eqn:E2.
    destruct (extends_after_retry _ _ _ _ _ _ E2) as [t2 Ht2].
    destruct (Z.to_nat max_retries - k)%nat as [|m] eqn:Em.
    + destruct (extends_retry _ _ _ _ _ E) as [t1 Ht1].
      exists (t1 ++ t2). cbn [snd]. rewrite Ht2, Ht1. subst wk. cbn [trace].
      rewrite <- !app_assoc. split; [reflexivity|lia].
    + cbn [seq] in E.
      destruct (retry_first_request _ _ _ _ _ _ E) as [t1 Ht1].
      exists (EvRequest req :: t1 ++ t2). cbn [snd].
      rewrite Ht2, Ht1. subst wk. cbn [trace].
      rewrite <- !app_assoc. cbn [app].
      split; [reflexivity|]. intros _. now exists (t1 ++ t2).
  - destruct (Z.to_nat max_retries - k)%nat as [|m] eqn:Em.
    + destruct (extends_retry _ _ _ _ _ E) as [t1 Ht1].
      exists t1. cbn [snd]. rewrite Ht1. subst wk. cbn [trace].
      rewrite <- !app_assoc. split; [reflexivity|lia].
    + cbn [seq] in E.
      destruct (retry_first_request _ _ _ _ _ _ E) as [t1 Ht1].
      exists (EvRequest req :: t1). cbn [snd].
      rewrite Ht1. subst wk. cbn [trace].
      rewrite <- !app_assoc. cbn [app].
      split; [reflexivity|]. intros _. now exists t1.
Qed.

(** What a round put in the trace stays in front of whatever the rest of
    the loop adds. *)
Lemma loop_keeps_round (fuel : nat) (all_records : list value)
    (has_next_page cursor : value) (w : world) (r : result fetched)
    (w' : world) :
  truthy has_next_page = true ->
  loop (S fuel) all_records has_next_page cursor w = Some (r, w') ->
  exists tail,
    trace w' = trace (snd (page_round all_records cursor w)) ++ tail.
Proof.
  intros Ht H. cbn [fetch_loop] in H. rewrite Ht in H.
  destruct (page_round all_records cursor w) as [[[acc hnp c|x]|e] w1] eqn:E;
    cbn [snd].
  - exact (extends_loop _ _ _ _ _ _ _ H).
  - injection H as _ <-. exists []. now rewrite app_nil_r.
  - injection H as _ <-. exists []. now rewrite app_nil_r.
Qed.


(** *** Single page *)

Lemma loop_done (fuel : nat) (all_records : list value)
    (has_next_page cursor : value) (w : world) :
  truthy has_next_page = false ->
  loop fuel all_records has_next_page cursor w
  = Some (Ok (Records all_records), w).
Proof. intros H. destruct fuel; cbn [fetch_loop]; now rewrite H. Qed.

(** When the first attempt is answered by an object with status
    "SUCCESS" whose [hasNextPage] is false (or absent, or any false
    value), [fetch_data] has issued exactly one request, the one without
    cursor, has not slept, and returns what flattening that page gives:
    its records, or [None] should the flattening raise. *)
Lemma first_page_outcome (fuel : nat) (d : list (string * value)) :
  1 <= max_retries ->
  server 0%nat = Body (VDict d) ->
  eq_str (dict_get d "status" VNone) "SUCCESS" = true ->
  truthy (dict_get d "hasNextPage" (VBool false)) = false ->
  exists w',
    fetch (S fuel)
    = Some (match Flatten.records_of (VDict d) with
            | Ok records => Ok (Records records)
            | Raise _ => Ok PyNone
            end, w')
    /\ calls w' = 1%nat
    /\ requests (trace w') = [request_for VNone]
    /\ sleeps (trace w') = [].
Proof.
  intros Hn Hs Hok Hlast.
  unfold fetch_data. cbn [fetch_loop truthy].
  rewrite (page_success [] VNone d init Hn Hs Hok), after_retry_break.
  unfold Flatten.records_of.
  destruct (parse_records_no_request (VDict d)) as [Hreq Hsl].
  destruct (Flatten.parse_records (VDict d)) as [[records|e] logs];
    cbn [fst snd] in *.
  - rewrite (loop_done _ _ _ _ _ Hlast). cbn [app].
    eexists. split; [reflexivity|]. split; [reflexivity|].
    cbn [trace init app]. unfold requests, sleeps in *.
    cbn [flat_map app]. rewrite !flat_map_app, Hreq, Hsl. now split.
  - eexists. split; [reflexivity|]. split; [reflexivity|].
    cbn [trace init app]. unfold requests, sleeps in *.
    cbn [flat_map app]. rewrite !flat_map_app, Hreq, Hsl. now split.
Qed.

(** C6, for a page that flattens: when the first attempt is answered by
    an object with status "SUCCESS" whose [hasNextPage] is false (or
    absent, or any false value) and [parse_records] returns [records] on
    it, [fetch_data] returns exactly [records], having issued exactly one
    request, the one without cursor, and not having slept. *)
Theorem single_page (fuel : nat) (d : list (string * value))
    (records : list value) :
  1 <= max_retries ->
  server 0%nat = Body (VDict d) ->
  eq_str (dict_get d "status" VNone) "SUCCESS" = true ->
  truthy (dict_get d "hasNextPage" (VBool false)) = false ->
  Flatten.records_of (VDict d) = Ok records ->
  exists w',
    fetch (S fuel) = Some (Ok (Records records), w')
    /\ calls w' = 1%nat
    /\ requests (trace w') = [request_for VNone]
    /\ sleeps (trace w') = [].
Proof.
  intros Hn Hs Hok Hlast Hrec.
  destruct (first_page_outcome fuel d Hn Hs Hok Hlast) as (w' & H & Hrest).
  rewrite Hrec in H. exists w'. split; [exact H | exact Hrest].
Qed.

(** *** A page without a cursor for the next one *)

Lemma round_first_request (all_records : list value) (cursor : value)
    (w : world) :
  1 <= max_retries ->
  exists tail,
    trace (snd (page_round all_records cursor w))
    = trace w ++ EvRequest (request_for cursor) :: tail.
Proof.
  intros Hn. unfold page.
  destruct (Z.to_nat max_retries) as [|m] eqn:Em; [lia|].
  cbn [seq]. unfold bind.
  destruct (retry (request_for cursor) (0%nat :: seq 1 m) w)
    as [[exit|e] w1] eqn:E;
    destruct (retry_first_request _ _ _ _ _ _ E) as [t1 Ht1].
  - destruct (after_retry all_records cursor exit w1) as [r2 w2] eqn:E2.
    destruct (extends_after_retry _ _ _ _ _ _ E2) as [t2 Ht2].
    exists (t1 ++ t2). cbn [snd]. rewrite Ht2, Ht1.
    now rewrite <- app_assoc.
  - exists t1. exact Ht1.
Qed.

(** A page that arrives at the first attempt and flattens: the loop
    goes to its next round with the records appended and with what the
    page says of [hasNextPage] and [nextCursor]. *)
Lemma round_continues (fuel : nat) (all_records : list value)
    (has_next_page cursor : value) (w : world)
    (d : list (string * value)) (records : list value) :
  1 <= max_retries ->
  truthy has_next_page = true ->
  server (calls w) = Body (VDict d) ->
  eq_str (dict_get d "status" VNone) "SUCCESS" = true ->
  Flatten.records_of (VDict d) = Ok records ->
  exists w1,
    loop (S fuel) all_records has_next_page cursor w
    = loop fuel (all_records ++ records)
        (dict_get d "hasNextPage" (VBool false))
        (dict_get d "nextCursor" VNone) w1
    /\ calls w1 = S (calls w).
Proof.
  intros Hn Ht Hs Hok Hrec.
  cbn [fetch_loop]. rewrite Ht.
  rewrite (page_success all_records cursor d w Hn Hs Hok), after_retry_break.
  unfold Flatten.records_of in Hrec.
  destruct (Flatten.parse_records (VDict d)) as [[records'|e] logs];
    cbn [fst] in Hrec; [|discriminate].
  injection Hrec as ->.
  eexists. split; reflexivity.
Qed.

(** The round after [k] failed attempts, when the next attempt is
    answered by a body [v]: what follows is decided on [v] alone. *)
Lemma page_after_failures_body (all_records : list value) (cursor : value)
    (w : world) (k : nat) (v : value) :
  waits_accepted delay k ->
  (k < Z.to_nat max_retries)%nat ->
  (forall j, (j < k)%nat -> is_failure (server (calls w + j)) = true) ->
  server (calls w + k) = Body v ->
  page_round all_records cursor w
  = bind
      (status <- lift (py_get v "status" VNone) ;;
       if eq_str status "SUCCESS"
       then
         log Info "Data ready for retrieval." [] ;;
         ret (Break v)
       else
         log Warning
           "[Attempt {attempt + 1}] Data processing. Retrying in {wait_time}s..."
           [AInt (Z.of_nat k + 1); AInt (wait k)] ;;
         sleep (wait k) ;;
         retry (request_for cursor) (seq (S k) (Z.to_nat max_retries - S k)))%M
      (after_retry all_records cursor)
      (mkWorld (S (calls w + k))
         (trace w
          ++ backoff_events server delay (request_for cursor) 0 k (calls w)
          ++ [EvRequest (request_for cursor)])).
Proof.
  intros Hd Hk Hf Hs.
  rewrite (page_after_failures all_records cursor w k Hd (Nat.lt_le_incl _ _ Hk) Hf).
  replace (Z.to_nat max_retries - k)%nat
    with (S (Z.to_nat max_retries - S k)) by lia.
  cbn [seq]. unfold bind at 1. rewrite retry_unfold. cbn [calls trace].
  rewrite Hs. rewrite <- app_assoc. reflexivity.
Qed.

(** A page that arrives after [k] failed attempts and flattens: the
    round ends by going on, with the page's records appended and with
    what the page says of [hasNextPage] and [nextCursor]; the trace of
    the round is the [k] failed attempts, the request that is answered,
    then log records only. *)
Lemma round_delivers (all_records : list value) (cursor : value) (w : world)
    (k : nat) (d : list (string * value)) (records : list value) :
  waits_accepted delay k ->
  (k < Z.to_nat max_retries)%nat ->
  (forall j, (j < k)%nat -> is_failure (server (calls w + j)) = true) ->
  server (calls w + k) = Body (VDict d) ->
  eq_str (dict_get d "status" VNone) "SUCCESS" = true ->
  Flatten.records_of (VDict d) = Ok records ->
  exists w1 middle,
    page_round all_records cursor w
    = (Ok (Continue (all_records ++ records)
             (dict_get d "hasNextPage" (VBool false))
             (dict_get d "nextCursor" VNone)), w1)
    /\ calls w1 = (calls w + S k)%nat
    /\ trace w1
       = trace w
         ++ backoff_events server delay (request_for cursor) 0 k (calls w)
         ++ EvRequest (request_for cursor) :: middle
    /\ requests middle = []
    /\ sleeps middle = [].
Proof.
  intros Hd Hk Hf Hs Hok Hrec.
  rewrite (page_after_failures_body all_records cursor w k _ Hd Hk Hf Hs).
  unfold bind at 1. unfold bind at 1, lift. cbn [py_get]. rewrite Hok.
  unfold bind at 1, log, emit, ret. cbn [calls trace].
  rewrite after_retry_break.
  unfold Flatten.records_of in Hrec.
  destruct (parse_records_no_request (VDict d)) as [Hreq Hsl].
  destruct (Flatten.parse_records (VDict d)) as [[records'|e] logs];
    cbn [fst snd] in *; [|discriminate Hrec].
  injection Hrec as ->.
  eexists. eexists. split; [reflexivity|]. cbn [calls trace].
  split; [lia|].
  split; [rewrite <- !app_assoc; cbn [app]; reflexivity|].
  unfold requests, sleeps in *. cbn [flat_map app].
  rewrite !flat_map_app, Hreq, Hsl. now split.
Qed.

(** One round of the loop: what the [while] statement does with the
    outcome of the round. *)
Lemma loop_round (fuel : nat) (all_records : list value)
    (has_next_page cursor : value) (w : world) :
  truthy has_next_page = true ->
  loop (S fuel) all_records has_next_page cursor w
  = match page_round all_records cursor w with
    | (Ok (Continue all_records' has_next_page' cursor'), w') =>
        loop fuel all_records' has_next_page' cursor' w'
    | (Ok (Return r), w') => Some (Ok r, w')
    | (Raise e, w') => Some (Raise e, w')
    end.
Proof. intros Ht. cbn [fetch_loop]. now rewrite Ht. Qed.


(** X18: a server that answers every request by the same page with a true
    [hasNextPage] keeps the loop going whatever the fuel: the call has no
    deadline of its own. *)
Lemma endless_pagination (d : list (string * value)) (records : list value) :
  1 <= max_retries ->
  (forall n, server n = Body (VDict d)) ->
  eq_str (dict_get d "status" VNone) "SUCCESS" = true ->
  Flatten.records_of (VDict d) = Ok records ->
  truthy (dict_get d "hasNextPage" (VBool false)) = true ->
  forall fuel all_records has_next_page cursor w,
    truthy has_next_page = true ->
    loop fuel all_records has_next_page cursor w = None.
Proof.
  intros Hn Hs Hok Hrec Hnext.
  induction fuel as [|fuel IH]; intros all_records has_next_page cursor w Ht.
  - cbn [fetch_loop]. now rewrite Ht.
  - destruct (round_continues fuel all_records has_next_page cursor w d
                records Hn Ht (Hs _) Hok Hrec) as (w1 & -> & _).
    now apply IH.
Qed.

(** *** All pages or nothing *)

Lemma received_succ (first n : nat) :
  received server first (S n) = server first :: received server (S first) n.
Proof. reflexivity. Qed.

Lemma received_app (first n m : nat) :
  received server first (n + m)
  = received server first n ++ received server (first + n) m.
Proof. unfold received. now rewrite seq_app, map_app. Qed.

Lemma pages_app (rs1 rs2 : list response) :
  pages (rs1 ++ rs2) = pages rs1 ++ pages rs2.
Proof. apply flat_map_app. Qed.

(** The loop leaves by [break] with the one page among the answers it
    went through, the last of them. *)
Lemma retry_break (req : request) :
  forall attempts w v w',
    retry req attempts w = (Ok (Break v), w') ->
    exists k d,
      v = VDict d
      /\ calls w' = (calls w + S k)%nat
      /\ pages (received server (calls w) (S k)) = [v].
Proof.
  induction attempts as [|attempt rest IH]; intros w v w' H;
    [discriminate H|].
  rewrite retry_unfold in H.
  assert (Hnext : forall w1,
             calls w1 = S (calls w) ->
             page_of (server (calls w)) = None ->
             retry req rest w1 = (Ok (Break v), w') ->
             exists k d,
               v = VDict d
               /\ calls w' = (calls w + S k)%nat
               /\ pages (received server (calls w) (S k)) = [v]).
  { intros w1 Hc Hp H1.
    destruct (IH _ _ _ H1) as (k & d & -> & Hk & Hpages).
    exists (S k), d. rewrite Hc in Hk, Hpages.
    split; [reflexivity|]. split; [lia|].
    rewrite received_succ. cbn [pages flat_map]. rewrite Hp.
    exact Hpages. }
  destruct (server (calls w)) as [e|body] eqn:Es.
  - unfold bind, log, emit, sleep, raise in H.
    destruct (sleep_refused (wait attempt)); [discriminate H|].
    unfold emit in H. cbn [calls trace] in H.
    refine (Hnext _ _ _ H); reflexivity.
  - unfold bind at 1, lift in H.
    destruct body; try discriminate H. cbn [py_get] in H.
    destruct (eq_str (dict_get d "status" VNone) "SUCCESS") eqn:Eok.
    + unfold bind, log, emit, ret in H. injection H as <- <-.
      exists 0%nat, d. cbn [calls]. split; [reflexivity|]. split; [lia|].
      unfold received. cbn [seq map pages flat_map]. rewrite Es.
      cbn [page_of]. now rewrite Eok.
    + unfold bind, log, emit, sleep, raise in H.
      destruct (sleep_refused (wait attempt)); [discriminate H|].
      unfold emit in H. cbn [calls trace] in H.
      refine (Hnext _ _ _ H); [reflexivity|].
      cbn [page_of]. now rewrite Eok.
Qed.

Lemma page_continue (all_records : list value) (cursor : value) (w : world)
    (all_records' : list value) (has_next_page' cursor' : value) (w' : world) :
  page_round all_records cursor w
  = (Ok (Continue all_records' has_next_page' cursor'), w') ->
  exists k d records,
    calls w' = (calls w + S k)%nat
    /\ pages (received server (calls w) (S k)) = [VDict d]
    /\ Flatten.records_of (VDict d) = Ok records
    /\ all_records' = all_records ++ records
    /\ has_next_page' = dict_get d "hasNextPage" (VBool false).
Proof.
  unfold page, bind. intros H.
  destruct (retry (request_for cursor) (seq 0 (Z.to_nat max_retries)) w)
    as [[[v|]|e] w1] eqn:E; [| discriminate H | discriminate H].
  destruct (retry_break _ _ _ _ _ E) as (k & d & -> & Hk & Hp).
  rewrite after_retry_break in H. unfold Flatten.records_of.
  destruct (Flatten.parse_records (VDict d)) as [[records|e] logs] eqn:Ep;
    [|discriminate H].
  injection H as <- <- _ <-.
  exists k, d, records. rewrite Ep. cbn [calls fst].
  repeat split; assumption.
Qed.

(** A round never ends the call with a list: only the loop test does. *)
Lemma page_return (all_records : list value) (cursor : value) (w : world)
    (x : fetched) (w' : world) :
  page_round all_records cursor w = (Ok (Return x), w') -> x = PyNone.
Proof.
  unfold page, bind. intros H.
  destruct (retry (request_for cursor) (seq 0 (Z.to_nat max_retries)) w)
    as [[[v|]|e] w1] eqn:E; [| | discriminate H].
  - destruct (retry_break _ _ _ _ _ E) as (k & d & -> & _).
    rewrite after_retry_break in H.
    destruct (Flatten.parse_records (VDict d)) as [[records|e] logs];
      [discriminate H | now injection H as <- _].
  - cbn [after_retry] in H. unfold bind, log, emit, ret in H.
    now injection H as <- _.
Qed.

Lemma complete_nonempty (ps : list value) : complete ps = true -> ps <> [].
Proof. now destruct ps. Qed.

Lemma loop_records :
  forall fuel all_records has_next_page cursor w out w',
    truthy has_next_page = true ->
    loop fuel all_records has_next_page cursor w = Some (Ok (Records out), w') ->
    exists n more,
      calls w' = (calls w + n)%nat
      /\ flatten_pages (pages (received server (calls w) n)) = Ok more
      /\ out = all_records ++ more
      /\ complete (pages (received server (calls w) n)) = true.
Proof.
  induction fuel as [|fuel IH];
    intros all_records has_next_page cursor w out w' Ht H;
    cbn [fetch_loop] in H; rewrite Ht in H; [discriminate H|].
  destruct (page_round all_records cursor w)
    as [[[acc1 hnp1 c1|x]|e] w1] eqn:E.
  - destruct (page_continue _ _ _ _ _ _ _ E)
      as (k & d & records & Hk & Hp & Hrec & -> & ->).
    destruct (truthy (dict_get d "hasNextPage" (VBool false))) eqn:Hnext.
    + destruct (IH _ _ _ _ _ _ Hnext H) as (n & more & Hn & Hflat & -> & Hc).
      rewrite Hk in Hn, Hflat, Hc.
      exists (S k + n)%nat, (records ++ more).
      rewrite received_app, pages_app, Hp.
      split; [lia|]. cbn [app flatten_pages]. rewrite Hrec, Hflat.
      split; [reflexivity|]. split; [now rewrite app_assoc|].
      cbn [complete].
      destruct (pages (received server (calls w + S k) n)) as [|p ps] eqn:Eps;
        [discriminate Hc|].
      unfold has_next at 1. cbn [py_get]. rewrite Hnext. exact Hc.
    + rewrite (loop_done _ _ _ _ _ Hnext) in H. injection H as <- <-.
      exists (S k), records. rewrite Hp.
      split; [exact Hk|]. cbn [flatten_pages]. rewrite Hrec.
      split; [now rewrite app_nil_r|]. split; [reflexivity|].
      cbn [complete]. unfold has_next. cbn [py_get]. now rewrite Hnext.
  - rewrite (page_return _ _ _ _ _ E) in H. discriminate H.
  - discriminate H.
Qed.

(** *** The pages of the requested range *)

Local Abbreviation range_pages :=
  (walk access_token start_date end_date identifier request_timeout).

Lemma failure_is_no_page (r : response) :
  is_failure r = true -> page_of r = None.
Proof.
  destruct r as [e|body]; [reflexivity|].
  destruct body; try reflexivity. cbn.
  now destruct (eq_str (dict_get d "status" VNone) "SUCCESS").
Qed.

(** The loop leaves by [break] at the first answer that is a page, after
    requests that are all the same. *)
Lemma retry_break_at (req : request) :
  forall attempts w v w',
    retry req attempts w = (Ok (Break v), w') ->
    exists k d,
      v = VDict d
      /\ (k < List.length attempts)%nat
      /\ calls w' = (calls w + S k)%nat
      /\ page_of (server (calls w + k)) = Some v
      /\ (forall j, (j < k)%nat -> page_of (server (calls w + j)) = None)
      /\ requests (trace w') = requests (trace w) ++ repeat req (S k).
Proof.
  induction attempts as [|attempt rest IH]; intros w v w' H;
    [discriminate H|].
  rewrite retry_unfold in H.
  assert (Hnext : forall w1,
             calls w1 = S (calls w) ->
             requests (trace w1) = requests (trace w) ++ [req] ->
             page_of (server (calls w)) = None ->
             retry req rest w1 = (Ok (Break v), w') ->
             exists k d,
               v = VDict d
               /\ (k < List.length (attempt :: rest))%nat
               /\ calls w' = (calls w + S k)%nat
               /\ page_of (server (calls w + k)) = Some v
               /\ (forall j, (j < k)%nat ->
                             page_of (server (calls w + j)) = None)
               /\ requests (trace w')
                  = requests (trace w) ++ repeat req (S k)).
  { intros w1 Hc Hr Hp H1.
    destruct (IH _ _ _ H1) as (k & d & -> & Hlen & Hk & Hpage & Hnone & Hreq).
    exists (S k), d. rewrite Hc in Hk, Hpage, Hnone. rewrite Hr in Hreq.
    split; [reflexivity|]. split; [cbn; lia|]. split; [lia|].
    split; [now rewrite Nat.add_succ_r|].
    split.
    - intros j Hj. destruct j as [|j]; [now rewrite Nat.add_0_r|].
      rewrite Nat.add_succ_r. apply Hnone. lia.
    - rewrite Hreq, <- app_assoc. reflexivity. }
  destruct (server (calls w)) as [e|body] eqn:Es.
  - unfold bind, log, emit, sleep, raise in H.
    destruct (sleep_refused (wait attempt)); [discriminate H|].
    unfold emit in H. cbn [calls trace] in H.
    refine (Hnext _ _ _ _ H); try reflexivity.
    cbn [trace]. rewrite !requests_app. cbn. now rewrite !app_nil_r.
  - unfold bind at 1, lift in H.
    destruct body; try discriminate H. cbn [py_get] in H.
    destruct (eq_str (dict_get d "status" VNone) "SUCCESS") eqn:Eok.
    + unfold bind, log, emit, ret in H. injection H as <- <-.
      exists 0%nat, d. cbn [calls trace]. rewrite Nat.add_0_r.
      split; [reflexivity|]. split; [cbn; lia|]. split; [lia|].
      split; [rewrite Es; cbn [page_of]; now rewrite Eok|].
      split; [intros j Hj; lia|].
      rewrite !requests_app. cbn. now rewrite !app_nil_r.
    + unfold bind, log, emit, sleep, raise in H.
      destruct (sleep_refused (wait attempt)); [discriminate H|].
      unfold emit in H. cbn [calls trace] in H.
      refine (Hnext _ _ _ _ H); try reflexivity.
      * cbn [trace]. rewrite !requests_app. cbn. now rewrite !app_nil_r.
      * cbn [page_of]. now rewrite Eok.
Qed.

(** A round that goes on has been delivered a page that flattens, at the
    first answer of the round that is a page. *)
Lemma page_continue_at (all_records : list value) (cursor : value) (w : world)
    (all_records' : list value) (has_next_page' cursor' : value) (w' : world) :
  page_round all_records cursor w
  = (Ok (Continue all_records' has_next_page' cursor'), w') ->
  exists k d records,
    (k < Z.to_nat max_retries)%nat
    /\ calls w' = (calls w + S k)%nat
    /\ page_of (server (calls w + k)) = Some (VDict d)
    /\ (forall j, (j < k)%nat -> page_of (server (calls w + j)) = None)
    /\ Flatten.records_of (VDict d) = Ok records
    /\ all_records' = all_records ++ records
    /\ has_next_page' = dict_get d "hasNextPage" (VBool false)
    /\ cursor' = dict_get d "nextCursor" VNone
    /\ requests (trace w')
       = requests (trace w) ++ repeat (request_for cursor) (S k).
Proof.
  unfold page, bind. intros H.
  destruct (retry (request_for cursor) (seq 0 (Z.to_nat max_retries)) w)
    as [[[v|]|e] w1] eqn:E; [| discriminate H | discriminate H].
  destruct (retry_break_at _ _ _ _ _ E)
    as (k & d & -> & Hlen & Hk & Hpage & Hnone & Hreq).
  rewrite length_seq in Hlen.
  rewrite after_retry_break in H. unfold Flatten.records_of.
  destruct (parse_records_no_request (VDict d)) as [Hlogs _].
  destruct (Flatten.parse_records (VDict d)) as [[records|e] logs] eqn:Ep;
    [|discriminate H].
  injection H as <- <- <- <-.
  exists k, d, records. cbn [calls trace fst snd] in *.
  repeat split; try assumption; [now rewrite Ep|].
  change (EvLog Info "Parsing records at cursor point: {cursor}"
            [AVal cursor] :: ?l) with
    ([EvLog Info "Parsing records at cursor point: {cursor}" [AVal cursor]]
     ++ l).
  rewrite !requests_app, Hreq, Hlogs. cbn. now rewrite app_nil_r.
Qed.

Lemma loop_walk (source : request -> value) :
  forall fuel all_records has_next_page cursor w out w',
    truthy has_next_page = true ->
    List.length (requests (trace w)) = calls w ->
    loop fuel all_records has_next_page cursor w = Some (Ok (Records out), w') ->
    answers_by source server (trace w') ->
    exists n ps more,
      range_pages source n cursor = Some ps
      /\ flatten_pages ps = Ok more
      /\ out = all_records ++ more.
Proof.
  induction fuel as [|fuel IH];
    intros all_records has_next_page cursor w out w' Ht Hlen H Hsrc;
    cbn [fetch_loop] in H; rewrite Ht in H; [discriminate H|].
  destruct (page_round all_records cursor w)
    as [[[acc1 hnp1 c1|x]|e] w1] eqn:E.
  - destruct (page_continue_at _ _ _ _ _ _ _ E)
      as (k & d & records & _ & Hk & Hpage & _ & Hrec & -> & -> & -> & Hreq).
    assert (Hlen1 : List.length (requests (trace w1)) = calls w1).
    { rewrite Hreq, length_app, repeat_length. lia. }
    assert (Hd : VDict d = source (request_for cursor)).
    { destruct (extends_loop _ _ _ _ _ _ _ H) as [tail Htail].
      apply (Hsrc (calls w + k)%nat); [|exact Hpage].
      rewrite Htail, requests_app, Hreq, <- app_assoc.
      rewrite nth_error_app2 by lia.
      replace (calls w + k - List.length (requests (trace w)))%nat
        with k by lia.
      rewrite nth_error_app1 by (rewrite repeat_length; lia).
      apply nth_error_repeat. lia. }
    destruct (truthy (dict_get d "hasNextPage" (VBool false))) eqn:Hnext.
    + destruct (IH _ _ _ _ _ _ Hnext Hlen1 H Hsrc)
        as (n & ps & more & Hwalk & Hflat & ->).
      exists (S n), (VDict d :: ps), (records ++ more).
      split; [|split].
      * cbn [walk]. rewrite <- Hd. unfold has_next, next_cursor.
        cbn [py_get]. rewrite Hnext, Hwalk. reflexivity.
      * cbn [flatten_pages]. now rewrite Hrec, Hflat.
      * now rewrite app_assoc.
    + rewrite (loop_done _ _ _ _ _ Hnext) in H. injection H as <- <-.
      exists 1%nat, [VDict d], records.
      split; [|split].
      * cbn [walk]. rewrite <- Hd. unfold has_next.
        cbn [py_get]. now rewrite Hnext.
      * cbn [flatten_pages]. rewrite Hrec. now rewrite app_nil_r.
      * reflexivity.
  - rewrite (page_return _ _ _ _ _ E) in H. discriminate H.
  - discriminate H.
Qed.

(** A round in which the first page delivered does not flatten ends the
    call with [None]. *)
Lemma round_parse_fails (all_records : list value) (cursor : value) (w : world)
    (k : nat) (d : list (string * value)) (e : exn) :
  waits_accepted delay k ->
  (k < Z.to_nat max_retries)%nat ->
  (forall j, (j < k)%nat -> is_failure (server (calls w + j)) = true) ->
  server (calls w + k) = Body (VDict d) ->
  eq_str (dict_get d "status" VNone) "SUCCESS" = true ->
  Flatten.records_of (VDict d) = Raise e ->
  exists w1,
    page_round all_records cursor w = (Ok (Return PyNone), w1)
    /\ calls w1 = (calls w + S k)%nat.
Proof.
  intros Hd Hk Hf Hs Hok Hrec.
  rewrite (page_after_failures_body all_records cursor w k _ Hd Hk Hf Hs).
  unfold bind at 1. unfold bind at 1, lift. cbn [py_get]. rewrite Hok.
  unfold bind at 1, log, emit, ret. cbn [calls trace].
  rewrite after_retry_break.
  unfold Flatten.records_of in Hrec.
  destruct (Flatten.parse_records (VDict d)) as [[records'|e'] logs];
    cbn [fst] in Hrec; [discriminate Hrec|].
  eexists. split; [reflexivity|]. cbn [calls]. lia.
Qed.




(** *** Further properties of the fetcher *)

(** X9: with [max_retries] zero or negative the [for] loop has no round:
    [fetch_data] returns [None] at once, having logged the error and
    issued no request at all. *)
Theorem no_attempt_without_retries (fuel : nat) (all_records : list value)
    (has_next_page cursor : value) (w : world) :
  max_retries <= 0 ->
  truthy has_next_page = true ->
  loop (S fuel) all_records has_next_page cursor w
  = Some (Ok PyNone,
          mkWorld (calls w)
            (trace w
             ++ [EvLog Error "Max retries exceeded. Data still processing." []])).
Proof.
  intros Hn Ht. cbn [fetch_loop]. rewrite Ht. unfold page.
  replace (Z.to_nat max_retries) with 0%nat by lia.
  reflexivity.
Qed.

(** X10: when [time.sleep] refuses [delay] (a [delay] that the warning
    can print), the first failed attempt of a round ends the call: the
    exception of [time.sleep] leaves [fetch_data], after one request and
    no sleep. The exception is [ValueError] for a negative [delay] down
    to [- sleep_max], and [OverflowError] for a [delay] beyond
    [sleep_max] in magnitude, negative or positive. *)
Theorem negative_delay_raises (fuel : nat) (all_records : list value)
    (has_next_page cursor : value) (w : world) :
  printable delay ->
  delay < 0 \/ sleep_max < delay ->
  1 <= max_retries ->
  truthy has_next_page = true ->
  is_failure (server (calls w)) = true ->
  exists w',
    loop (S fuel) all_records has_next_page cursor w
    = Some (Raise
              (if (delay <? - sleep_max) || (sleep_max <? delay)
               then OverflowError
                      "timestamp too large to convert to C _PyTime_t"
               else ValueError "sleep length must be non-negative"),
            w')
    /\ calls w' = S (calls w)
    /\ requests (trace w') = requests (trace w) ++ [request_for cursor]
    /\ sleeps (trace w') = sleeps (trace w).
Proof.
  intros _ Hd Hn Ht Hf. cbn [fetch_loop]. rewrite Ht. unfold page.
  destruct (Z.to_nat max_retries) as [|m] eqn:Em; [lia|].
  cbn [seq]. unfold bind at 1. rewrite retry_unfold.
  assert (Hw : sleep_refused (wait 0)
               = Some (if (delay <? - sleep_max) || (sleep_max <? delay)
                       then OverflowError
                              "timestamp too large to convert to C _PyTime_t"
                       else ValueError "sleep length must be non-negative")).
  { unfold wait_time, sleep_refused. cbn [Z.of_nat].
    rewrite Z.pow_0_r, Z.mul_1_r.
    destruct ((delay <? - sleep_max) || (sleep_max <? delay)) eqn:E;
      [reflexivity|].
    apply orb_false_iff in E. destruct E as [_ E2].
    apply Z.ltb_ge in E2.
    destruct (delay <? 0) eqn:E3; [reflexivity|].
    apply Z.ltb_ge in E3. lia. }
  destruct (server (calls w)) as [e|body].
  - unfold bind, log, emit, sleep, raise. rewrite Hw.
    eexists. split; [reflexivity|]. cbn [calls trace].
    split; [reflexivity|].
    rewrite !requests_app, !sleeps_app. cbn. now rewrite !app_nil_r.
  - destruct body; try discriminate Hf. cbn [is_failure] in Hf.
    unfold bind, lift, py_get, log, emit, sleep, raise.
    destruct (eq_str (dict_get d "status" VNone) "SUCCESS");
      [discriminate Hf|].
    rewrite Hw.
    eexists. split; [reflexivity|]. cbn [calls trace].
    split; [reflexivity|].
    rewrite !requests_app, !sleeps_app. cbn. now rewrite !app_nil_r.
Qed.



(** The cursor of a request: a cursor that is true (a non-empty string,
    a non-zero number, ...) is sent as the [cursor] parameter after the
    three fixed ones; a cursor that is false ([None], the empty string,
    0, ...) is not sent at all. The other parts of the request do not
    depend on the cursor. *)
Lemma request_cursor (cursor : value) :
  lookup "cursor" (params (request_for cursor))
  = (if truthy cursor then Some cursor else None)
  /\ params (request_for cursor)
     = [ ("start_date", VStr start_date); ("end_date", VStr end_date);
         ("identifier", VStr identifier) ]
       ++ (if truthy cursor then [("cursor", cursor)] else [])
  /\ url (request_for cursor) = "https://api.adserver.com/data"
  /\ headers (request_for cursor)
     = [ ("Authorization", ("Bearer " ++ access_token)%string);
         ("Accept", "application/json") ]
  /\ timeout (request_for cursor) = request_timeout.
Proof.
  unfold make_request, make_params. cbn [params url headers timeout].
  destruct (truthy cursor); repeat split; reflexivity.
Qed.

(** A page that arrives at the first attempt, with what the round puts
    in the trace: its one request, then log records only. *)
Lemma round_continues_trace (fuel : nat) (all_records : list value)
    (has_next_page cursor : value) (w : world)
    (d : list (string * value)) (records : list value) :
  1 <= max_retries ->
  truthy has_next_page = true ->
  server (calls w) = Body (VDict d) ->
  eq_str (dict_get d "status" VNone) "SUCCESS" = true ->
  Flatten.records_of (VDict d) = Ok records ->
  exists w1 middle,
    loop (S fuel) all_records has_next_page cursor w
    = loop fuel (all_records ++ records)
        (dict_get d "hasNextPage" (VBool false))
        (dict_get d "nextCursor" VNone) w1
    /\ calls w1 = S (calls w)
    /\ trace w1 = trace w ++ EvRequest (request_for cursor) :: middle
    /\ requests middle = []
    /\ sleeps middle = [].
Proof.
  intros Hn Ht Hs Hok Hrec.
  cbn [fetch_loop]. rewrite Ht.
  rewrite (page_success all_records cursor d w Hn Hs Hok), after_retry_break.
  unfold Flatten.records_of in Hrec.
  destruct (parse_records_no_request (VDict d)) as [Hreq Hsl].
  destruct (Flatten.parse_records (VDict d)) as [[records'|e] logs];
    cbn [fst snd] in *; [|discriminate Hrec].
  injection Hrec as ->.
  eexists. eexists. split; [reflexivity|]. cbn [calls trace].
  split; [reflexivity|].
  split; [rewrite <- app_assoc; cbn [app]; reflexivity|].
  unfold requests, sleeps in *. cbn [flat_map app].
  rewrite !flat_map_app, Hreq, Hsl. now split.
Qed.


(** *** Pages that all arrive at once *)

Lemma pages_first_try :
  1 <= max_retries ->
  forall ds all_records has_next_page cursor w records,
    ds <> [] ->
    truthy has_next_page = true ->
    (forall i, (i < List.length ds)%nat ->
               server (calls w + i) = Body (VDict (nth i ds []))) ->
    Forall (fun d => eq_str (dict_get d "status" VNone) "SUCCESS" = true) ds ->
    complete (map VDict ds) = true ->
    flatten_pages (map VDict ds) = Ok records ->
    exists w',
      loop (List.length ds) all_records has_next_page cursor w
      = Some (Ok (Records (all_records ++ records)), w')
      /\ calls w' = (calls w + List.length ds)%nat
      /\ List.length (requests (trace w'))
         = (List.length (requests (trace w)) + List.length ds)%nat
      /\ sleeps (trace w') = sleeps (trace w).
Proof.
  intros Hn. induction ds as [|d rest IH];
    intros all_records has_next_page cursor w records Hne Ht Hs Hok Hc Hflat;
    [now destruct Hne|].
  inversion Hok as [|d' rest' Hd Hrest]; subst.
  cbn [map flatten_pages] in Hflat.
  destruct (Flatten.records_of (VDict d)) as [r1|e] eqn:Hrec;
    [|discriminate Hflat].
  destruct (flatten_pages (map VDict rest)) as [more|e] eqn:Hmore;
    [|discriminate Hflat].
  injection Hflat as <-.
  assert (Hs0 : server (calls w) = Body (VDict d)).
  { specialize (Hs 0%nat). rewrite Nat.add_0_r in Hs. apply Hs. cbn. lia. }
  destruct (round_continues_trace (List.length rest) all_records has_next_page
              cursor w d r1 Hn Ht Hs0 Hd Hrec)
    as (w1 & middle & Hloop & Hcalls & Htrace & Hreq & Hsl).
  cbn [List.length]. rewrite Hloop.
  assert (Hr1 : List.length (requests (trace w1))
                = S (List.length (requests (trace w)))).
  { rewrite Htrace, requests_app. cbn. fold (requests middle).
    rewrite Hreq, length_app. cbn. lia. }
  assert (Hs1 : sleeps (trace w1) = sleeps (trace w)).
  { rewrite Htrace, sleeps_app. cbn. fold (sleeps middle).
    rewrite Hsl. apply app_nil_r. }
  destruct rest as [|d2 rest].
  - cbn [map complete] in Hc. unfold has_next in Hc. cbn [py_get] in Hc.
    apply negb_true_iff in Hc.
    rewrite (loop_done _ _ _ _ _ Hc). cbn [flatten_pages map] in Hmore.
    injection Hmore as <-. rewrite app_nil_r.
    exists w1. split; [reflexivity|]. cbn [List.length].
    repeat split; [lia | lia | exact Hs1].
  - cbn [map complete] in Hc. apply andb_prop in Hc.
    destruct Hc as [Hnext Hc]. unfold has_next in Hnext. cbn [py_get] in Hnext.
    assert (Hne' : d2 :: rest <> []) by discriminate.
    assert (Hs' : forall i, (i < List.length (d2 :: rest))%nat ->
                   server (calls w1 + i)
                   = Body (VDict (nth i (d2 :: rest) []))).
    { intros i Hi. rewrite Hcalls.
      specialize (Hs (S i)). rewrite Nat.add_succ_r in Hs.
      apply Hs. cbn [List.length] in *. lia. }
    destruct (IH (all_records ++ r1)
                (dict_get d "hasNextPage" (VBool false))
                (dict_get d "nextCursor" VNone) w1 more
                Hne' Hnext Hs' Hrest Hc eq_refl)
      as (w' & Hrun & Hcalls' & Hreq' & Hsl').
    exists w'. rewrite <- app_assoc in Hrun.
    split; [exact Hrun|]. cbn [List.length] in *.
    repeat split; [lia | lia | congruence].
Qed.

(** X14: when the server answers the requests by the pages [ds] in order,
    each of them with status "SUCCESS", all but the last announcing a
    further page and the last one not, [fetch_data] returns their
    flattening in page order (provided each page flattens), after
    exactly one request per page and without sleeping. *)
Theorem fetch_all_pages (ds : list (list (string * value)))
    (records : list value) :
  1 <= max_retries ->
  (forall i, (i < List.length ds)%nat ->
             server i = Body (VDict (nth i ds []))) ->
  Forall (fun d => eq_str (dict_get d "status" VNone) "SUCCESS" = true) ds ->
  complete (map VDict ds) = true ->
  flatten_pages (map VDict ds) = Ok records ->
  exists w',
    fetch (List.length ds) = Some (Ok (Records records), w')
    /\ calls w' = List.length ds
    /\ List.length (requests (trace w')) = List.length ds
    /\ sleeps (trace w') = [].
Proof.
  intros Hn Hs Hok Hc Hflat.
  assert (Hne : ds <> []) by (intros ->; discriminate Hc).
  destruct (pages_first_try Hn ds [] (VBool true) VNone init records
              Hne eq_refl Hs Hok Hc Hflat)
    as (w' & Hrun & Hcalls & Hreq & Hsl).
  exists w'. cbn in Hcalls, Hreq, Hsl. unfold fetch_data.
  repeat split; assumption.
Qed.

(** *** The records that come out *)

Lemma flatten_pages_fields :
  forall ps records,
    flatten_pages ps = Ok records -> Forall Flatten.has_fields records.
Proof.
  induction ps as [|p rest IH]; intros records H; cbn [flatten_pages] in H.
  - injection H as <-. constructor.
  - destruct (Flatten.records_of p) as [r1|e] eqn:Hrec; [|discriminate H].
    destruct (flatten_pages rest) as [more|e]; [|discriminate H].
    injection H as <-. apply Forall_app. split; [|now apply IH].
    eapply Forall_impl; [|exact (FlattenFacts.parse_records_shape p r1 Hrec)].
    intros r (c & a & m & ->). eexists. split; reflexivity.
Qed.

(** X15: every record in a list that [fetch_data] returns is a dict with the
    eight keys campaign, ad_name, date, cost, impressions, clicks,
    conversions, revenue, in this order. *)
Theorem fetched_records_have_fields (fuel : nat) (all_records : list value)
    (w' : world) :
  fetch fuel = Some (Ok (Records all_records), w') ->
  Forall Flatten.has_fields all_records.
Proof.
  intros H. unfold fetch_data in H.
  destruct (loop_records fuel [] (VBool true) VNone init _ _ eq_refl H)
    as (n & more & _ & Hflat & -> & _).
  exact (flatten_pages_fields _ _ Hflat).
Qed.

(** *** The exceptions that come out *)

(** An exception leaves the [for] loop at one of its attempts: from
    [response_json.get] on a body that is no object, or from
    [time.sleep] refusing the wait that follows a failed answer. *)
Lemma retry_raise (req : request) :
  forall attempts w e w',
    retry req attempts w = (Raise e, w') ->
    exists k attempt,
      nth_error attempts k = Some attempt
      /\ calls w' = S (calls w + k)
      /\ ((exists v,
             server (calls w + k) = Body v
             /\ Flatten.is_object v = false
             /\ e = AttributeError (type_name v) "get")
          \/ (is_failure (server (calls w + k)) = true
              /\ sleep_refused (wait attempt) = Some e)).
Proof.
  induction attempts as [|attempt rest IH]; intros w e w' H;
    [discriminate H|].
  rewrite retry_unfold in H.
  assert (Hnext : forall w1,
             calls w1 = S (calls w) ->
             retry req rest w1 = (Raise e, w') ->
             exists k attempt0,
               nth_error (attempt :: rest) k = Some attempt0
               /\ calls w' = S (calls w + k)
               /\ ((exists v,
                      server (calls w + k) = Body v
                      /\ Flatten.is_object v = false
                      /\ e = AttributeError (type_name v) "get")
                   \/ (is_failure (server (calls w + k)) = true
                       /\ sleep_refused (wait attempt0) = Some e))).
  { intros w1 Hc H1.
    destruct (IH _ _ _ H1) as (k & a & Hnth & Hk & Hcase).
    exists (S k), a. rewrite Hc in Hk, Hcase.
    rewrite Nat.add_succ_r. repeat split; assumption. }
  assert (Hsleep : forall w0,
             is_failure (server (calls w)) = true ->
             calls w0 = S (calls w) ->
             (sleep (wait attempt) ;; retry req rest)%M w0 = (Raise e, w') ->
             exists k attempt0,
               nth_error (attempt :: rest) k = Some attempt0
               /\ calls w' = S (calls w + k)
               /\ ((exists v,
                      server (calls w + k) = Body v
                      /\ Flatten.is_object v = false
                      /\ e = AttributeError (type_name v) "get")
                   \/ (is_failure (server (calls w + k)) = true
                       /\ sleep_refused (wait attempt0) = Some e))).
  { intros w0 Hfail Hc H0. unfold bind at 1, sleep in H0.
    destruct (sleep_refused (wait attempt)) as [e1|] eqn:Er.
    - unfold raise in H0. injection H0 as <- <-.
      exists 0%nat, attempt. rewrite Nat.add_0_r.
      split; [reflexivity|]. split; [exact Hc|]. right. now split.
    - unfold emit in H0. refine (Hnext _ _ H0). exact Hc. }
  destruct (server (calls w)) as [e0|body] eqn:Es.
  - unfold bind at 1, log, emit in H.
    refine (Hsleep _ eq_refl _ H). reflexivity.
  - unfold bind at 1, lift in H.
    destruct body;
      try (cbn [py_get] in H; injection H as <- <-;
           exists 0%nat, attempt; rewrite Nat.add_0_r;
           split; [reflexivity|]; split; [reflexivity|]; left;
           eexists; split; [exact Es | split; reflexivity]).
    cbn [py_get] in H.
    destruct (eq_str (dict_get d "status" VNone) "SUCCESS") eqn:Eok.
    + discriminate H.
    + unfold bind at 1, log, emit in H.
      refine (Hsleep _ _ _ H); [|reflexivity].
      cbn [is_failure]. now rewrite Eok.
Qed.

Lemma page_raise (all_records : list value) (cursor : value) (w : world)
    (e : exn) (w' : world) :
  page_round all_records cursor w = (Raise e, w') ->
  exists k,
    (k < Z.to_nat max_retries)%nat
    /\ calls w' = S (calls w + k)
    /\ ((exists v,
           server (calls w + k) = Body v
           /\ Flatten.is_object v = false
           /\ e = AttributeError (type_name v) "get")
        \/ (is_failure (server (calls w + k)) = true
            /\ sleep_refused (delay * 2 ^ Z.of_nat k) = Some e)).
Proof.
  unfold page, bind. intros H.
  destruct (retry (request_for cursor) (seq 0 (Z.to_nat max_retries)) w)
    as [[[v|]|e0] w1] eqn:E.
  - destruct (retry_break _ _ _ _ _ E) as (k & d & -> & _).
    rewrite after_retry_break in H.
    destruct (Flatten.parse_records (VDict d)) as [[records|e1] logs];
      discriminate H.
  - discriminate H.
  - injection H as <- <-.
    destruct (retry_raise _ _ _ _ _ E) as (k & attempt & Hnth & Hk & Hcase).
    assert (Hlt : (k < Z.to_nat max_retries)%nat).
    { assert (Hl : (k < List.length (seq 0 (Z.to_nat max_retries)))%nat)
        by (apply nth_error_Some; now rewrite Hnth).
      now rewrite length_seq in Hl. }
    assert (Ha : attempt = k).
    { apply nth_error_nth with (d := 0%nat) in Hnth.
      rewrite seq_nth in Hnth by exact Hlt. now rewrite <- Hnth. }
    subst attempt.
    exists k. split; [exact Hlt|]. split; [exact Hk|]. exact Hcase.
Qed.


(** *** The effects that happen *)

Local Abbreviation effect :=
  (fetch_effect access_token start_date end_date identifier delay
     request_timeout).

Lemma emits_ret (P : event -> Prop) {A} (a : A) : emits P (ret a).
Proof.
  intros w r w' [= _ <-]. exists []. split; [now rewrite app_nil_r|constructor].
Qed.

Lemma emits_raise (P : event -> Prop) {A} (e : exn) : emits P (@raise A e).
Proof.
  intros w r w' [= _ <-]. exists []. split; [now rewrite app_nil_r|constructor].
Qed.

Lemma emits_lift (P : event -> Prop) {A} (x : result A) : emits P (lift x).
Proof.
  intros w r w' [= _ <-]. exists []. split; [now rewrite app_nil_r|constructor].
Qed.

Lemma emits_emit (P : event -> Prop) (ev : event) : P ev -> emits P (emit ev).
Proof.
  intros H w r w' [= _ <-]. exists [ev]. split; [reflexivity|now constructor].
Qed.

Lemma emits_logging (P : event -> Prop) {A} (m : Flatten.W A) :
  Forall P (snd m) -> emits P (logging m).
Proof. intros H w r w' [= _ <-]. now exists (snd m). Qed.

Lemma emits_sleep (P : event -> Prop) (seconds : Z) :
  P (EvSleep seconds) -> emits P (sleep seconds).
Proof.
  intros H. unfold sleep. destruct (sleep_refused seconds);
    [apply emits_raise | now apply emits_emit].
Qed.

Lemma emits_http_get (P : event -> Prop) (req : request) :
  P (EvRequest req) -> emits P (http_get server req).
Proof.
  intros H w r w'. unfold http_get.
  destruct (server (calls w)); intros [= _ <-]; exists [EvRequest req];
    (split; [reflexivity|now constructor]).
Qed.

Lemma emits_bind (P : event -> Prop) {A B} (m : M A) (k : A -> M B) :
  emits P m -> (forall a, emits P (k a)) -> emits P (bind m k).
Proof.
  intros Hm Hk w r w'. unfold bind.
  destruct (m w) as [[a|e] w1] eqn:E; intros H.
  - destruct (Hm _ _ _ E) as (t1 & E1 & F1).
    destruct (Hk a _ _ _ H) as (t2 & E2 & F2).
    exists (t1 ++ t2). split; [now rewrite E2, E1, app_assoc|].
    apply Forall_app. now split.
  - injection H as _ <-. exact (Hm _ _ _ E).
Qed.

Lemma emits_try_except (P : event -> Prop) {A} (m : M A) (h : exn -> M A) :
  emits P m -> (forall e, emits P (h e)) -> emits P (try_except m h).
Proof.
  intros Hm Hh w r w'. unfold try_except.
  destruct (m w) as [[a|e] w1] eqn:E; intros H.
  - injection H as _ <-. exact (Hm _ _ _ E).
  - destruct (Hm _ _ _ E) as (t1 & E1 & F1).
    destruct (Hh e _ _ _ H) as (t2 & E2 & F2).
    exists (t1 ++ t2). split; [now rewrite E2, E1, app_assoc|].
    apply Forall_app. now split.
Qed.

Lemma effect_request (cursor : value) : effect (EvRequest (request_for cursor)).
Proof. now exists cursor. Qed.

Lemma effect_sleep (attempt : nat) : effect (EvSleep (wait attempt)).
Proof. now exists attempt. Qed.

Lemma effect_log (lvl : level) (template : string) (args : list log_arg) :
  effect (EvLog lvl template args).
Proof. exact I. Qed.

Ltac effects :=
  repeat first
    [ apply emits_bind; [|intros ?]
    | apply emits_try_except; [|intros ?]
    | apply emits_ret | apply emits_raise | apply emits_lift
    | apply emits_emit; apply effect_log
    | apply emits_sleep; apply effect_sleep
    | apply emits_http_get; apply effect_request
    | assumption ].

Lemma emits_retry (cursor : value) (attempts : list nat) :
  emits effect (retry (request_for cursor) attempts).
Proof.
  induction attempts as [|attempt rest IH]; cbn [retry_loop]; [effects|].
  apply emits_bind; [unfold log; effects|].
  intros [response_json|]; [|exact IH].
  apply emits_bind; [effects|]. intros status.
  destruct (eq_str status "SUCCESS"); unfold log; effects.
Qed.

Lemma emits_after_retry (all_records : list value) (cursor : value)
    (exit : for_exit) :
  emits effect (after_retry all_records cursor exit).
Proof.
  destruct exit as [response_json|]; cbn [after_retry]; unfold log;
    [|effects].
  apply emits_bind.
  - apply emits_try_except; [|intros e; effects].
    apply emits_bind; [effects|]. intros _.
    apply emits_bind; [|intros records; effects].
    apply emits_logging.
    eapply Forall_impl;
      [|exact (FlattenFacts.only_logs_parse_records response_json)].
    intros ev Hev. destruct ev; try discriminate Hev. exact I.
  - intros [records|]; effects.
Qed.

Lemma emits_page (all_records : list value) (cursor : value) :
  emits effect (page_round all_records cursor).
Proof.
  unfold page. apply emits_bind;
    [apply emits_retry | intros exit; apply emits_after_retry].
Qed.

Lemma emits_loop :
  forall fuel all_records has_next_page cursor w r w',
    loop fuel all_records has_next_page cursor w = Some (r, w') ->
    exists tail, trace w' = trace w ++ tail /\ Forall effect tail.
Proof.
  induction fuel as [|fuel IH]; intros all_records has_next_page cursor w r w';
    cbn [fetch_loop]; destruct (truthy has_next_page);
    try discriminate;
    try (intros [= _ <-]; exists []; split;
         [now rewrite app_nil_r | constructor]).
  destruct (page_round all_records cursor w) as [[[acc hnp c|x]|e] w1] eqn:E;
    destruct (emits_page _ _ _ _ _ E) as (t1 & E1 & F1).
  - intros H. destruct (IH _ _ _ _ _ _ H) as (t2 & E2 & F2).
    exists (t1 ++ t2). split; [now rewrite E2, E1, app_assoc|].
    apply Forall_app. now split.
  - intros [= _ <-]. now exists t1.
  - intros [= _ <-]. now exists t1.
Qed.

(** X17: whatever the server answers and however the call ends, the effects
    of [fetch_data] are of three kinds only: a GET request to the fixed
    URL with the bearer token, the timeout and the three fixed parameters
    (plus the cursor, if any); a sleep of [delay * 2^attempt] seconds for
    some attempt; a log record. It never touches the warehouse. *)
Theorem fetch_effects_only (fuel : nat) (r : result fetched) (w' : world) :
  fetch fuel = Some (r, w') ->
  Forall
    (fun ev =>
       match ev with
       | EvRequest req =>
           url req = "https://api.adserver.com/data"
           /\ headers req
              = [ ("Authorization", ("Bearer " ++ access_token)%string);
                  ("Accept", "application/json") ]
           /\ timeout req = request_timeout
           /\ firstn 3 (params req)
              = [ ("start_date", VStr start_date);
                  ("end_date", VStr end_date);
                  ("identifier", VStr identifier) ]
       | EvSleep seconds => exists attempt, seconds = delay * 2 ^ Z.of_nat attempt
       | EvLog _ _ _ => True
       | EvSubmit _ _ _ _ => False
       | EvWait _ => False
       end)
    (trace w').
Proof.
  intros H. unfold fetch_data in H.
  destruct (emits_loop _ _ _ _ _ _ _ H) as (tail & -> & F).
  cbn [trace init app].
  eapply Forall_impl; [|exact F].
  intros ev Hev. destruct ev; try exact Hev.
  destruct Hev as [cursor ->].
  unfold make_request, make_params. cbn [url headers timeout params].
  destruct (truthy cursor); repeat split; reflexivity.
Qed.

End Run.

(** The waits [delay * 2^j] of the first [n] attempts, [n] and [delay]
    given, are lengths [time.sleep] accepts. *)
Lemma printable_small (n : Z) : Z.abs n < 10 ^ 11 -> printable n.
Proof.
  intros H. unfold printable.
  apply Z.lt_le_trans with (1 := H).
  apply Z.pow_le_mono_r; lia.
Qed.

Tactic Notation "small_waits" integer(n) :=
  let j := fresh "j" in
  let Hj := fresh "Hj" in
  intros j Hj;
  do n (destruct j as [|j]; [vm_compute; split; discriminate|]);
  exfalso; cbn in Hj; lia.





(** C6 as stated fails: the first answer has status "SUCCESS" and a
    false [hasNextPage], and [fetch_data] returns [None] after its one
    request, because [parse_records] raises on the page ([ads: null]). *)
Lemma single_page_lost_on_null_ads :
  Samples.null_ads_server 0%nat = Body Samples.null_ads_page
  /\ py_get Samples.null_ads_page "status" VNone = Ok (VStr "SUCCESS")
  /\ py_get Samples.null_ads_page "hasNextPage" (VBool false)
     = Ok (VBool false)
  /\ option_map fst (Samples.default_fetch Samples.null_ads_server 1)
     = Some (Ok PyNone)
  /\ option_map (fun x => calls (snd x))
       (Samples.default_fetch Samples.null_ads_server 1)
     = Some 1%nat.
Proof. vm_compute. repeat split; reflexivity. Qed.

(** The worked example of the specification, end to end. *)
Lemma single_page_witness :
  exists w',
    fetch_data (Samples.script [Body Samples.example_page] Samples.unreachable)
      "token" "2025-06-01" "2025-06-30" "test" 3 5 30 1
    = Some (Ok (Records [Samples.example_record]), w')
    /\ calls w' = 1%nat.
Proof.
  destruct (single_page
              (Samples.script [Body Samples.example_page] Samples.unreachable)
              "token" "2025-06-01" "2025-06-30" "test" 3 5 30
              0%nat Samples.example_fields [Samples.example_record])
    as (w' & H & Hcalls & _); try reflexivity; try lia.
  exists w'. split; [exact H | exact Hcalls].
Defined.




(** That run returns the records of both pages, in page order. *)
Example two_pages_in_order :
  option_map fst
    (fetch_data
       Samples.two_page_server
       "token" "2025-06-01" "2025-06-30" "test" 3 5 30 2)
  = Some (Ok (Records [Samples.record_C0; Samples.example_record])).
Proof. vm_compute. reflexivity. Qed.

(** The attempts of a later round count from 0 again: the second round
    of this run gives up after its own three requests and sleeps of 5,
    10 and 20 seconds, and nothing of the first page is returned. *)
Example second_round_exhausted :
  let run :=
    fetch_data Samples.stalling_server
      "token" "2025-06-01" "2025-06-30" "test" 3 5 30 2 in
  option_map fst run = Some (Ok PyNone)
  /\ option_map (fun x => calls (snd x)) run = Some 4%nat
  /\ option_map (fun x => sleeps (trace (snd x))) run = Some [5; 10; 20]
  /\ option_map (fun x => requests (trace (snd x))) run
     = Some
         (make_request "token" "2025-06-01" "2025-06-30" "test" 30 VNone
          :: repeat (make_request "token" "2025-06-01" "2025-06-30" "test" 30
                       (VStr "abc")) 3).
Proof. vm_compute. repeat split; reflexivity. Qed.



(** *** Runs of the further properties *)

Lemma no_attempt_without_retries_witness :
  option_map fst
    (fetch_data Samples.paged_server "dummy-token" "2025-06-01" "2025-06-30"
       "test" 0 5 30 1)
  = Some (Ok PyNone).
Proof.
  unfold fetch_data.
  rewrite (no_attempt_without_retries Samples.paged_server "dummy-token"
             "2025-06-01" "2025-06-30" "test" 0 5 30 0%nat [] (VBool true)
             VNone init); [reflexivity | lia | reflexivity].
Defined.

Lemma negative_delay_raises_witness :
  (exists w',
      fetch_data (fun _ => Samples.unreachable) "dummy-token" "2025-06-01"
        "2025-06-30" "test" 3 (-5) 30 1
      = Some (Raise (ValueError "sleep length must be non-negative"), w')
      /\ calls w' = 1%nat)
  /\ (exists w',
         fetch_data (fun _ => Samples.unreachable) "dummy-token" "2025-06-01"
           "2025-06-30" "test" 3 (- Samples.long_delay) 30 1
         = Some (Raise (OverflowError
                          "timestamp too large to convert to C _PyTime_t"),
                 w')
         /\ calls w' = 1%nat).
Proof.
  split.
  - destruct (negative_delay_raises (fun _ => Samples.unreachable)
                "dummy-token" "2025-06-01" "2025-06-30" "test" 3 (-5) 30
                0%nat [] (VBool true) VNone init)
      as (w' & H & Hcalls & _); try reflexivity;
      try (apply printable_small); try lia.
    exists w'. split; [exact H | exact Hcalls].
  - destruct (negative_delay_raises (fun _ => Samples.unreachable)
                "dummy-token" "2025-06-01" "2025-06-30" "test" 3
                (- Samples.long_delay) 30 0%nat [] (VBool true) VNone init)
      as (w' & H & Hcalls & _); try reflexivity;
      try (apply printable_small); try (unfold Samples.long_delay; lia).
    exists w'. split; [exact H | exact Hcalls].
Defined.




Lemma fetch_all_pages_witness :
  exists w',
    Samples.default_fetch Samples.paged_server 2
    = Some (Ok (Records [Samples.record_C0; Samples.example_record]), w')
    /\ calls w' = 2%nat.
Proof.
  destruct (fetch_all_pages Samples.paged_server "dummy-token" "2025-06-01"
              "2025-06-30" "test" 3 5 30 Samples.two_pages
              [Samples.record_C0; Samples.example_record])
    as (w' & H & Hcalls & _).
  - lia.
  - intros i Hi. destruct i as [|[|i]]; [reflexivity|reflexivity|].
    cbn in Hi. lia.
  - repeat constructor.
  - reflexivity.
  - reflexivity.
  - exists w'. split; [exact H | exact Hcalls].
Defined.

Lemma fetched_records_have_fields_witness :
  match Samples.default_fetch Samples.paged_server 2 with
  | Some (Ok (Records all_records), _) =>
      Forall Flatten.has_fields all_records
  | _ => False
  end.
Proof.
  pose proof (fetched_records_have_fields Samples.paged_server "dummy-token"
                "2025-06-01" "2025-06-30" "test" 3 5 30 2%nat) as H.
  unfold Samples.default_fetch.
  destruct (fetch_data Samples.paged_server "dummy-token" "2025-06-01"
              "2025-06-30" "test" 3 5 30 2)
    as [[[[all_records|]|e] w']|] eqn:E.
  - exact (H all_records w' eq_refl).
  - vm_compute in E. discriminate E.
  - vm_compute in E. discriminate E.
  - vm_compute in E. discriminate E.
Defined.


Lemma fetch_effects_only_witness :
  match Samples.default_fetch Samples.recovering_server 1 with
  | Some (_, w') =>
      Forall
        (fun ev =>
           match ev with
           | EvRequest req =>
               url req = "https://api.adserver.com/data"
               /\ headers req
                  = [ ("Authorization", "Bearer dummy-token");
                      ("Accept", "application/json") ]
               /\ timeout req = 30
               /\ firstn 3 (params req)
                  = [ ("start_date", VStr "2025-06-01");
                      ("end_date", VStr "2025-06-30");
                      ("identifier", VStr "test") ]
           | EvSleep seconds =>
               exists attempt, seconds = 5 * 2 ^ Z.of_nat attempt
           | EvLog _ _ _ => True
           | EvSubmit _ _ _ _ => False
           | EvWait _ => False
           end)
        (trace w')
  | None => False
  end.
Proof.
  pose proof (fetch_effects_only Samples.recovering_server "dummy-token"
                "2025-06-01" "2025-06-30" "test" 3 5 30 1%nat) as H.
  unfold Samples.default_fetch.
  destruct (fetch_data Samples.recovering_server "dummy-token" "2025-06-01"
              "2025-06-30" "test" 3 5 30 1)
    as [[r w']|] eqn:E.
  - exact (H r w' eq_refl).
  - vm_compute in E. discriminate E.
Defined.

Lemma endless_pagination_witness :
  Samples.default_fetch Samples.looping_server 7 = None.
Proof.
  apply (endless_pagination Samples.looping_server "dummy-token" "2025-06-01"
           "2025-06-30" "test" 3 5 30 Samples.fields_without_cursor
           [Samples.example_record]); try reflexivity. lia.
Defined.

End FetchFacts.
